(** * oura-cli: token lifecycle, OAuth callback capture and report commands

    A shallow embedding of [main.go].  The program is a sequence of
    effectful Go functions; each one is embedded as a function in a small
    state-and-exit monad over a [World] that holds what the program can
    observe and change: the clock, the files under the user's
    configuration directory, the remote HTTP endpoints, the two output
    streams and the global [config] variable.

    The concurrent part of [doAuth] (callback handler goroutines, the
    listener goroutine and the controller blocked in [select]) is embedded
    as a labelled transition system in [Module Auth]. *)

From Stdlib Require Import ZArith Lia DecimalString DecimalPos DecimalZ.
From stdpp Require Import base option list gmap strings.

Local Open Scope string_scope.
Local Open Scope Z_scope.
Local Open Scope list_scope.

(** ** Go integers, durations and instants *)

(** [int] and [int64] arithmetic wraps around at 64 bits. *)
Definition wrap64 (z : Z) : Z := (z + 2 ^ 63) mod 2 ^ 64 - 2 ^ 63.

Definition in_int64 (z : Z) : Prop := - 2 ^ 63 <= z < 2 ^ 63.

(** [time.Duration]: a count of nanoseconds. *)
Definition Duration := Z.
Definition Second : Duration := 1000000000.
Definition Minute : Duration := 60 * Second.

(** [time.Time], taken as the instant it denotes: nanoseconds since the
    Unix epoch.  The monotonic clock reading and the location that a Go
    [Time] also carries do not take part in [After], [Add] or [UnixNano],
    and are left out. *)
Definition Time := Z.
Definition Time_Add (t : Time) (d : Duration) : Time := t + d.
Definition Time_After (t u : Time) : bool := u <? t.
Definition Time_UnixNano (t : Time) : Z := t.

(** [fmt]'s [%d] verb. *)
Definition fmt_d (z : Z) : string := NilZero.string_of_int (Z.to_int z).

(** ** Data model *)

Record Config := {
  ClientID : string;
  ClientSecret : string
}.

Record TokenResponse := {
  resp_AccessToken : string;
  resp_RefreshToken : string;
  resp_ExpiresIn : Z;
  resp_TokenType : string
}.

Record StoredToken := {
  AccessToken : string;
  RefreshToken : string;
  ExpiresAt : Time
}.

Record HeartRateRecord := {
  hr_Timestamp : string;
  BPM : Z;
  hr_Source : string
}.

(** Go's [(value, error)] results; an error is kept as its message. *)
Inductive result (A : Type) : Type :=
| Ok (a : A)
| Err (e : string).
Arguments Ok {A} a.
Arguments Err {A} e.

(** ** HTTP as the program sees it *)

(** [url.Values] built by successive [Set] calls on distinct keys. *)
Definition Values := list (string * string).

Inductive HttpRequest : Type :=
| PostForm (url : string) (data : Values)
| GetBearer (url : string) (authorization : string).

Record HttpResponse := {
  StatusCode : Z;
  Body : string
}.

(** A round trip either fails in transport or yields a response whose
    body [io.ReadAll] returns in full. *)
Inductive HttpResult : Type :=
| HttpErr (e : string)
| HttpOk (r : HttpResponse).

(** ** The OAuth callback session of [doAuth]

    [doAuth] starts an HTTP server on its own goroutine, registers one
    handler for [/callback], and blocks in a [select] over [codeChan],
    [errChan] and a two-minute timer.  [net/http] runs every accepted
    request's handler on a goroutine of its own.  The session is embedded
    as a transition system: a state holds the two buffered channels
    (capacity 1), the goroutines that are running with the operations each
    has left, and where the controller stands; an event is one goroutine
    doing one thing.  A send on a full channel is not enabled (the sender
    stays blocked); a [select] case is enabled when its channel holds a
    value or the timer is due. *)
Module Auth.

(** What the handler reads from a request: [r.URL.Query().Get("state")]
    and [r.URL.Query().Get("code")], each empty when absent. *)
Record Request := {
  query_state : string;
  query_code : string
}.

Inductive Reply : Type :=
| ReplyError (msg : string) (status : Z)   (* http.Error(w, msg, status) *)
| ReplyPage (html : string).               (* text/html, fmt.Fprint(w, html) *)

Inductive Op : Type :=
| SendErr (e : string)      (* errChan <- e *)
| SendCode (c : string)     (* codeChan <- c *)
| Respond (r : Reply).

Definition StatusBadRequest : Z := 400.

Definition page : string :=
  "<html><body><h1>✓ Authenticated!</h1><p>You can close this tab.</p></body></html>".

(** The handler registered for [/callback], as the operations it performs
    in order. *)
Definition callback (state : string) (r : Request) : list Op :=
  if negb (String.eqb (query_state r) state) then
    [SendErr "state mismatch";
     Respond (ReplyError "State mismatch" StatusBadRequest)]
  else if String.eqb (query_code r) EmptyString then
    [SendErr "no code in callback";
     Respond (ReplyError "No code" StatusBadRequest)]
  else
    [Respond (ReplyPage page); SendCode (query_code r)].

(** The case the controller's [select] took. *)
Inductive Branch : Type :=
| GotCode (code : string)
| GotErr (e : string)
| TimerFired.

Inductive Controller : Type :=
| InSelect                (* blocked in select *)
| Woken (b : Branch)      (* a case was taken; server.Close() not yet called *)
| Stopped (b : Branch).   (* server.Close() has returned *)

Record Session := {
  state_token : string;            (* state *)
  codeChan : list string;
  errChan : list string;
  listening : bool;                (* the server accepts connections *)
  goroutines : list (list Op);     (* started goroutines, operations left *)
  written : list Reply;            (* responses written, oldest first *)
  controller : Controller;
  elapsed : Z                      (* nanoseconds since the select began *)
}.

Definition capacity : nat := 1.

Definition start (state : string) : Session :=
  {| state_token := state; codeChan := []; errChan := []; listening := true;
     goroutines := []; written := []; controller := InSelect; elapsed := 0 |}.

Inductive Event : Type :=
| Arrive (r : Request)     (* the server accepts a request for /callback *)
| Step (i : nat)           (* goroutine i performs its next operation *)
| ServeFails (e : string)  (* ListenAndServe returns e, not ErrServerClosed *)
| Wait (d : Z)             (* d nanoseconds pass *)
| TakeCode                 (* case code := <-codeChan *)
| TakeErr                  (* case err := <-errChan *)
| TimerFires               (* case <-time.After(2 * time.Minute) *)
| Close.                   (* the taken case calls server.Close() *)

(** After [server.Close()] the error and timer cases print and call
    [os.Exit(1)]: no goroutine runs any more. *)
Definition alive (s : Session) : bool :=
  match controller s with
  | Stopped (GotErr _) | Stopped TimerFired => false
  | _ => true
  end.

Definition spawn (ops : list Op) (s : Session) : Session :=
  {| state_token := state_token s; codeChan := codeChan s;
     errChan := errChan s; listening := listening s;
     goroutines := goroutines s ++ [ops]; written := written s;
     controller := controller s; elapsed := elapsed s |}.

Definition set_listening (b : bool) (s : Session) : Session :=
  {| state_token := state_token s; codeChan := codeChan s;
     errChan := errChan s; listening := b;
     goroutines := goroutines s; written := written s;
     controller := controller s; elapsed := elapsed s |}.

Definition set_controller (c : Controller) (s : Session) : Session :=
  {| state_token := state_token s; codeChan := codeChan s;
     errChan := errChan s; listening := listening s;
     goroutines := goroutines s; written := written s;
     controller := c; elapsed := elapsed s |}.

Definition set_codeChan (q : list string) (s : Session) : Session :=
  {| state_token := state_token s; codeChan := q;
     errChan := errChan s; listening := listening s;
     goroutines := goroutines s; written := written s;
     controller := controller s; elapsed := elapsed s |}.

Definition set_errChan (q : list string) (s : Session) : Session :=
  {| state_token := state_token s; codeChan := codeChan s;
     errChan := q; listening := listening s;
     goroutines := goroutines s; written := written s;
     controller := controller s; elapsed := elapsed s |}.

Definition add_written (r : Reply) (s : Session) : Session :=
  {| state_token := state_token s; codeChan := codeChan s;
     errChan := errChan s; listening := listening s;
     goroutines := goroutines s; written := written s ++ [r];
     controller := controller s; elapsed := elapsed s |}.

Definition set_goroutine (i : nat) (ops : list Op) (s : Session) : Session :=
  {| state_token := state_token s; codeChan := codeChan s;
     errChan := errChan s; listening := listening s;
     goroutines := <[i := ops]> (goroutines s); written := written s;
     controller := controller s; elapsed := elapsed s |}.

Definition add_elapsed (d : Z) (s : Session) : Session :=
  {| state_token := state_token s; codeChan := codeChan s;
     errChan := errChan s; listening := listening s;
     goroutines := goroutines s; written := written s;
     controller := controller s; elapsed := elapsed s + d |}.

(** One operation of goroutine [i], whose remaining operations are
    [op :: rest]. *)
Definition perform (i : nat) (op : Op) (rest : list Op) (s : Session)
  : option Session :=
  match op with
  | SendErr e =>
      if (length (errChan s) <? capacity)%nat
      then Some (set_goroutine i rest (set_errChan (errChan s ++ [e]) s))
      else None
  | SendCode c =>
      if (length (codeChan s) <? capacity)%nat
      then Some (set_goroutine i rest (set_codeChan (codeChan s ++ [c]) s))
      else None
  | Respond r => Some (set_goroutine i rest (add_written r s))
  end.

(** [step ev s] is the state after [ev], or [None] when [ev] is not
    enabled in [s]. *)
Definition step (ev : Event) (s : Session) : option Session :=
  match ev with
  | Arrive r =>
      if listening s && alive s
      then Some (spawn (callback (state_token s) r) s)
      else None
  | Step i =>
      if alive s then
        match goroutines s !! i with
        | Some (op :: rest) => perform i op rest s
        | _ => None
        end
      else None
  | ServeFails e =>
      if listening s && alive s
      then Some (spawn [SendErr e] (set_listening false s))
      else None
  | Wait d =>
      if 0 <=? d then Some (add_elapsed d s) else None
  | TakeCode =>
      match controller s, codeChan s with
      | InSelect, c :: q => Some (set_controller (Woken (GotCode c)) (set_codeChan q s))
      | _, _ => None
      end
  | TakeErr =>
      match controller s, errChan s with
      | InSelect, e :: q => Some (set_controller (Woken (GotErr e)) (set_errChan q s))
      | _, _ => None
      end
  | TimerFires =>
      match controller s with
      | InSelect =>
          if 2 * Minute <=? elapsed s
          then Some (set_controller (Woken TimerFired) s)
          else None
      | _ => None
      end
  | Close =>
      match controller s with
      | Woken b => Some (set_controller (Stopped b) (set_listening false s))
      | _ => None
      end
  end.

(** A schedule is a list of events; an event that is not enabled when its
    turn comes does not happen. *)
Definition exec (ev : Event) (s : Session) : Session :=
  match step ev s with
  | Some s' => s'
  | None => s
  end.

Definition run (evs : list Event) (s : Session) : Session :=
  fold_left (fun s ev => exec ev s) evs s.

(** Every event of the schedule is enabled in its turn. *)
Fixpoint feasible (evs : list Event) (s : Session) : bool :=
  match evs with
  | [] => true
  | ev :: evs' =>
      match step ev s with
      | Some s' => feasible evs' s'
      | None => false
      end
  end.

(** The case the select ends in.  When the schedule leaves the controller
    in [select], a channel that holds a value is received from, and with
    both channels empty the timer comes due. *)
Definition settle (s : Session) : Branch :=
  match controller s with
  | Woken b | Stopped b => b
  | InSelect =>
      match codeChan s, errChan s with
      | c :: _, _ => GotCode c
      | [], e :: _ => GotErr e
      | [], [] => TimerFired
      end
  end.

(** Requests the server has accepted: one goroutine each, apart from the
    listener's own. *)
Definition is_arrival (ev : Event) : bool :=
  match ev with Arrive _ => true | _ => false end.

Definition is_serve_failure (ev : Event) : bool :=
  match ev with ServeFails _ => true | _ => false end.

Definition is_take (ev : Event) : bool :=
  match ev with TakeCode | TakeErr | TimerFires => true | _ => false end.

(** How many times the controller's [select] takes a case along a
    schedule. *)
Fixpoint taken (evs : list Event) (s : Session) : nat :=
  match evs with
  | [] => 0
  | ev :: evs' =>
      match step ev s with
      | Some s' => (if is_take ev then 1 else 0) + taken evs' s'
      | None => taken evs' s
      end
  end.

(** Once [server.Close()] has returned the server accepts nothing. *)
Definition closed_when_stopped (s : Session) : Prop :=
  forall b, controller s = Stopped b -> listening s = false.

(** With no arrival and no listener failure the channels stay empty and
    the only case the select can take is the timer. *)
Definition idle (s : Session) : Prop :=
  codeChan s = [] /\ errChan s = [] /\ goroutines s = [] /\
  match controller s with
  | InSelect => True
  | Woken b | Stopped b => b = TimerFired
  end.

(** A schedule in which no request arrives and the listener does not
    fail. *)
Definition uneventful (evs : list Event) : Prop :=
  Forall (fun ev => is_arrival ev = false /\ is_serve_failure ev = false) evs.

End Auth.

(** ** Files and processes *)

Record File := {
  f_mode : Z;
  f_data : string
}.

Inductive OsCall : Type :=
| OpMkdirAll (dir : string) (perm : Z)
| OpWriteFile (path : string) (data : string) (perm : Z)
| OpStart (name : string) (args : list string)    (* exec.Command(..).Start() *)
| OpServerClose (addr : string).                  (* server.Close() *)

(** How [os.WriteFile] fails at a path it cannot write in full.  It opens
    the file with [O_WRONLY|O_CREATE|O_TRUNC], writes and closes: when the
    open fails nothing has changed; when the write or the close fails the
    file exists, has lost its old content and holds the [kept] first bytes
    of the data. *)
Inductive WriteFault : Type :=
| FailsAtOpen
| FailsAfterOpen (kept : nat) (e : string).

(** ** The world *)

Record World := {
  w_clock : nat -> Time;              (* successive readings of time.Now() *)
  w_reads : nat;                      (* readings taken so far *)
  w_home : string;                    (* os.UserHomeDir() *)
  w_goos : string;                    (* runtime.GOOS *)
  w_files : gmap string File;         (* regular files by path *)
  w_writable : string -> bool;        (* paths os.WriteFile writes in full *)
  w_fault : string -> WriteFault;     (* how it fails at the other paths *)
  w_net : nat -> HttpRequest -> HttpResult;  (* reply to the n-th request *)
  w_schedule : list Auth.Event;       (* what happens around the listener *)
  w_http : list HttpRequest;          (* requests issued, oldest first *)
  w_calls : list OsCall;              (* calls into the OS, oldest first *)
  w_stdout : string;
  w_stderr : string;
  w_config : Config;                  (* the global variable config *)
  w_args : list string                (* os.Args *)
}.

Definition tick (w : World) : World :=
  {| w_clock := w_clock w; w_reads := S (w_reads w); w_home := w_home w;
     w_goos := w_goos w; w_files := w_files w; w_writable := w_writable w;
     w_fault := w_fault w;
     w_net := w_net w; w_schedule := w_schedule w; w_http := w_http w;
     w_calls := w_calls w; w_stdout := w_stdout w; w_stderr := w_stderr w;
     w_config := w_config w; w_args := w_args w |}.

Definition log_http (q : HttpRequest) (w : World) : World :=
  {| w_clock := w_clock w; w_reads := w_reads w; w_home := w_home w;
     w_goos := w_goos w; w_files := w_files w; w_writable := w_writable w;
     w_fault := w_fault w;
     w_net := w_net w; w_schedule := w_schedule w;
     w_http := w_http w ++ [q]; w_calls := w_calls w;
     w_stdout := w_stdout w; w_stderr := w_stderr w;
     w_config := w_config w; w_args := w_args w |}.

Definition log_call (o : OsCall) (w : World) : World :=
  {| w_clock := w_clock w; w_reads := w_reads w; w_home := w_home w;
     w_goos := w_goos w; w_files := w_files w; w_writable := w_writable w;
     w_fault := w_fault w;
     w_net := w_net w; w_schedule := w_schedule w; w_http := w_http w;
     w_calls := w_calls w ++ [o]; w_stdout := w_stdout w;
     w_stderr := w_stderr w; w_config := w_config w; w_args := w_args w |}.

Definition set_files (fs : gmap string File) (w : World) : World :=
  {| w_clock := w_clock w; w_reads := w_reads w; w_home := w_home w;
     w_goos := w_goos w; w_files := fs; w_writable := w_writable w;
     w_fault := w_fault w;
     w_net := w_net w; w_schedule := w_schedule w; w_http := w_http w;
     w_calls := w_calls w; w_stdout := w_stdout w; w_stderr := w_stderr w;
     w_config := w_config w; w_args := w_args w |}.

Definition put_stdout (s : string) (w : World) : World :=
  {| w_clock := w_clock w; w_reads := w_reads w; w_home := w_home w;
     w_goos := w_goos w; w_files := w_files w; w_writable := w_writable w;
     w_fault := w_fault w;
     w_net := w_net w; w_schedule := w_schedule w; w_http := w_http w;
     w_calls := w_calls w; w_stdout := w_stdout w +:+ s;
     w_stderr := w_stderr w; w_config := w_config w; w_args := w_args w |}.

Definition put_stderr (s : string) (w : World) : World :=
  {| w_clock := w_clock w; w_reads := w_reads w; w_home := w_home w;
     w_goos := w_goos w; w_files := w_files w; w_writable := w_writable w;
     w_fault := w_fault w;
     w_net := w_net w; w_schedule := w_schedule w; w_http := w_http w;
     w_calls := w_calls w; w_stdout := w_stdout w;
     w_stderr := w_stderr w +:+ s; w_config := w_config w;
     w_args := w_args w |}.

Definition set_config (c : Config) (w : World) : World :=
  {| w_clock := w_clock w; w_reads := w_reads w; w_home := w_home w;
     w_goos := w_goos w; w_files := w_files w; w_writable := w_writable w;
     w_fault := w_fault w;
     w_net := w_net w; w_schedule := w_schedule w; w_http := w_http w;
     w_calls := w_calls w; w_stdout := w_stdout w; w_stderr := w_stderr w;
     w_config := c; w_args := w_args w |}.

(** The same world, where [os.WriteFile] fails at [path] as [f] says. *)
Definition failing_at (path : string) (f : WriteFault) (w : World) : World :=
  {| w_clock := w_clock w; w_reads := w_reads w; w_home := w_home w;
     w_goos := w_goos w; w_files := w_files w;
     w_writable := fun p => if String.eqb p path then false else w_writable w p;
     w_fault := fun p => if String.eqb p path then f else w_fault w p;
     w_net := w_net w; w_schedule := w_schedule w; w_http := w_http w;
     w_calls := w_calls w; w_stdout := w_stdout w; w_stderr := w_stderr w;
     w_config := w_config w; w_args := w_args w |}.

(** ** The monad: state passing with [os.Exit] *)

Inductive Outcome (A : Type) : Type :=
| Done (a : A)           (* the call returned *)
| Exited (code : Z).     (* os.Exit(code): the process is gone *)
Arguments Done {A} a.
Arguments Exited {A} code.

Definition M (A : Type) : Type := World -> Outcome A * World.

Definition ret {A} (a : A) : M A := fun w => (Done a, w).

Definition bind {A B} (m : M A) (k : A -> M B) : M B :=
  fun w => match m w with
           | (Done a, w') => k a w'
           | (Exited c, w') => (Exited c, w')
           end.

Notation "'let*' x ':=' m 'in' k" := (bind m (fun x => k))
  (at level 10, x name, m at level 100, k at level 200).
Notation "'run*' m 'in' k" := (bind m (fun _ => k))
  (at level 10, m at level 100, k at level 200).

Definition os_Exit {A} (code : Z) : M A := fun w => (Exited code, w).

(** Exit status of the process when the command is all that [main] runs. *)
Definition exit_status {A} (o : Outcome A) : Z :=
  match o with Done _ => 0 | Exited c => c end.

Definition nl : string := "
".

Definition time_Now : M Time :=
  fun w => (Done (w_clock w (w_reads w)), tick w).

Definition Print (s : string) : M unit :=
  fun w => (Done tt, put_stdout s w).

Definition Println (s : string) : M unit := Print (s +:+ nl).

Definition Eprint (s : string) : M unit :=
  fun w => (Done tt, put_stderr s w).

Definition get_config : M Config := fun w => (Done (w_config w), w).

Definition os_Args : M (list string) := fun w => (Done (w_args w), w).

Definition os_UserHomeDir : M string := fun w => (Done (w_home w), w).

Definition runtime_GOOS : M string := fun w => (Done (w_goos w), w).

Definition http_Do (q : HttpRequest) : M HttpResult :=
  fun w => (Done (w_net w (length (w_http w)) q), log_http q w).

Definition os_MkdirAll (dir : string) (perm : Z) : M unit :=
  fun w => (Done tt, log_call (OpMkdirAll dir perm) w).

Definition cmd_Start (name : string) (args : list string) : M unit :=
  fun w => (Done tt, log_call (OpStart name args) w).

Definition server_Close (addr : string) : M unit :=
  fun w => (Done tt, log_call (OpServerClose addr) w).

Definition os_ReadFile (path : string) : M (result string) :=
  fun w => match w_files w !! path with
           | Some f => (Done (Ok (f_data f)), w)
           | None =>
               (Done (Err ("open " +:+ path +:+ ": no such file or directory")), w)
           end.

(** [os.WriteFile]: create with [perm], or truncate an existing file and
    keep its mode; then write.  A failure after the open leaves the file
    truncated. *)
Definition os_WriteFile (path data : string) (perm : Z) : M (result unit) :=
  fun w =>
    let mode := match w_files w !! path with
                | Some f => f_mode f
                | None => perm
                end in
    if w_writable w path then
      (Done (Ok tt),
       log_call (OpWriteFile path data perm)
         (set_files (<[path := {| f_mode := mode; f_data := data |}]> (w_files w)) w))
    else
      match w_fault w path with
      | FailsAtOpen =>
          (Done (Err ("open " +:+ path +:+ ": permission denied")), w)
      | FailsAfterOpen kept e =>
          (Done (Err e),
           log_call (OpWriteFile path data perm)
             (set_files
                (<[path := {| f_mode := mode;
                              f_data := String.substring 0 kept data |}]>
                   (w_files w)) w))
      end.

(** The [select] of [doAuth]: the listener's surroundings behave as the
    world's schedule says. *)
Definition await (state : string) : M Auth.Branch :=
  fun w => (Done (Auth.settle (Auth.run (w_schedule w) (Auth.start state))), w).

(** ** What the program takes from its libraries

    [encoding/json], [net/url], [path/filepath], [fmt]'s padding and the
    calendar part of [time] are not code of this program.  Their functions
    are taken as they are called, at the types the program calls them
    with.  The report records other than [HeartRateRecord] are only
    filtered by their day and handed to the report-printing tails of the
    fetch functions (the [Printf] sequences that follow the no-data check,
    which print and do nothing else), so both are kept abstract. *)
Class Extern := {
  filepath_Join : list string -> string;
  url_Encode : Values -> string;
  (* json.MarshalIndent(token, "", "  ") and json.Unmarshal(data, &token) *)
  json_MarshalIndent : StoredToken -> result string;
  json_Unmarshal_token : string -> result StoredToken;
  (* json.Unmarshal(data, &config) *)
  json_Unmarshal_config : string -> result Config;
  (* json.NewDecoder(resp.Body).Decode(&tokenResp) *)
  json_Decode : string -> result TokenResponse;
  (* json.MarshalIndent(result, "", "  ") in fetchJSON, the error dropped *)
  json_MarshalIndent_raw : gmap string string -> string;
  (* t.Format("2006-01-02") *)
  format_date : Time -> string;
  (* time.Parse("2006-01-02", date), AddDate(0, 0, n), Format("2006-01-02") *)
  add_days : string -> Z -> string;
  (* the verb %-10s *)
  fmt_s_left10 : string -> string;
  DailySleepRecord : Type;
  SleepRecord : Type;
  ReadinessRecord : Type;
  ActivityRecord : Type;
  StressRecord : Type;
  SpO2Record : Type;
  ResilienceRecord : Type;
  VO2MaxRecord : Type;
  WorkoutRecord : Type;
  daily_sleep_Day : DailySleepRecord -> string;
  sleep_Day : SleepRecord -> string;
  readiness_Day : ReadinessRecord -> string;
  activity_Day : ActivityRecord -> string;
  (* json.Unmarshal(body, &data) followed by data.Data, the error dropped *)
  data_daily_sleep : string -> list DailySleepRecord;
  data_sleep : string -> list SleepRecord;
  data_readiness : string -> list ReadinessRecord;
  data_activity : string -> list ActivityRecord;
  data_heartrate : string -> list HeartRateRecord;
  data_stress : string -> list StressRecord;
  data_spo2 : string -> list SpO2Record;
  data_resilience : string -> list ResilienceRecord;
  data_vo2 : string -> list VO2MaxRecord;
  data_workout : string -> list WorkoutRecord;
  (* the printing tails *)
  print_sleep : string -> option DailySleepRecord -> list SleepRecord -> string;
  print_readiness : ReadinessRecord -> string;
  print_activity : ActivityRecord -> string;
  print_stress : StressRecord -> string;
  print_spo2 : SpO2Record -> string;
  print_resilience : ResilienceRecord -> string;
  print_vo2 : VO2MaxRecord -> string;
  print_workouts : string -> list WorkoutRecord -> string
}.

(** ** Constants and small helpers *)

Definition redirectURI : string := "http://localhost:8081/callback".
Definition authURL : string := "https://cloud.ouraring.com/oauth/authorize".
Definition tokenURL : string := "https://api.ouraring.com/oauth/token".
Definition apiBase : string := "https://api.ouraring.com/v2/usercollection".

Definition dq : string := String (Ascii.ascii_of_nat 34) EmptyString.

Fixpoint Repeat (s : string) (count : nat) : string :=
  match count with
  | O => EmptyString
  | S n => s +:+ Repeat s n
  end.

Definition TrimPrefix (s prefix : string) : string :=
  if String.prefix prefix s
  then String.substring (String.length prefix)
         (String.length s - String.length prefix) s
  else s.

Definition rule : string := Repeat "─" 40.

Definition usage : string :=
"oura - Oura Ring CLI

Commands:
  auth              Authenticate with Oura (first time setup)
  today             Show today's summary
  all [date]        Show all metrics for date (default: today)
  sleep [date]      Show sleep data
  activity [date]   Show activity data  
  readiness [date]  Show readiness data
  heartrate [date]  Show heart rate data
  stress [date]     Show daytime stress data
  spo2 [date]       Show blood oxygen data
  resilience [date] Show resilience data
  vo2 [date]        Show VO2 max data
  workout [date]    Show workouts
  json [date]       Raw JSON dump of all data

Date format: YYYY-MM-DD (defaults to today)".

(** The loop of [fetchHeartRate] over [data.Data]: [min] starts at 999,
    [max] and [sum] at 0. *)
Definition hr_loop (data : list HeartRateRecord) : Z * Z * Z :=
  fold_left
    (fun '(min, max, sum) hr =>
       (if BPM hr <? min then BPM hr else min,
        if max <? BPM hr then BPM hr else max,
        wrap64 (sum + BPM hr)))
    data (999, 0, 0).

Definition hr_min (data : list HeartRateRecord) : Z := (hr_loop data).1.1.
Definition hr_max (data : list HeartRateRecord) : Z := (hr_loop data).1.2.
Definition hr_sum (data : list HeartRateRecord) : Z := (hr_loop data).2.

(** [avg := sum / len(data.Data)]: Go's integer division truncates. *)
Definition hr_avg (data : list HeartRateRecord) : Z :=
  Z.quot (hr_sum data) (Z.of_nat (length data)).

Section Program.
Context `{Extern}.

(** ** Configuration and token files *)

Definition getConfigDir : M string :=
  let* home := os_UserHomeDir in
  let dir := filepath_Join [home; ".config"; "oura"] in
  run* os_MkdirAll dir 448 (* 0700 *) in
  ret dir.

Definition loadConfig : M (option string) :=
  let* dir := getConfigDir in
  let configPath := filepath_Join [dir; "config.json"] in
  let* r := os_ReadFile configPath in
  match r with
  | Err _ =>
      ret (Some ("missing config: " +:+ configPath +:+ nl
                 +:+ "Create it with:" +:+ nl +:+ "{" +:+ nl
                 +:+ "  " +:+ dq +:+ "client_id" +:+ dq +:+ ": "
                 +:+ dq +:+ "your-id" +:+ dq +:+ "," +:+ nl
                 +:+ "  " +:+ dq +:+ "client_secret" +:+ dq +:+ ": "
                 +:+ dq +:+ "your-secret" +:+ dq +:+ nl +:+ "}"))
  | Ok data =>
      match json_Unmarshal_config data with
      | Err e => ret (Some e)
      | Ok c => fun w => (Done None, set_config c w)
      end
  end.

Definition getTokenPath : M string :=
  let* dir := getConfigDir in
  ret (filepath_Join [dir; "token.json"]).

Definition saveToken (token : StoredToken) : M (result unit) :=
  match json_MarshalIndent token with
  | Err e => ret (Err e)
  | Ok data =>
      let* path := getTokenPath in
      os_WriteFile path data 384 (* 0600 *)
  end.

Definition loadToken : M (result StoredToken) :=
  let* path := getTokenPath in
  let* r := os_ReadFile path in
  match r with
  | Err e => ret (Err e)
  | Ok data =>
      match json_Unmarshal_token data with
      | Err e => ret (Err e)
      | Ok token => ret (Ok token)
      end
  end.

(** ** Token manager *)

Definition refresh_form (refresh : string) (c : Config) : Values :=
  [("grant_type", "refresh_token"); ("refresh_token", refresh);
   ("client_id", ClientID c); ("client_secret", ClientSecret c)].

(** The [StoredToken] built from a token response at time [now]. *)
Definition stored_of (r : TokenResponse) (now : Time) : StoredToken :=
  {| AccessToken := resp_AccessToken r;
     RefreshToken := resp_RefreshToken r;
     ExpiresAt := Time_Add now (wrap64 (resp_ExpiresIn r * Second)) |}.

Definition refreshToken (refresh : string) : M (result StoredToken) :=
  let* c := get_config in
  let* r := http_Do (PostForm tokenURL (refresh_form refresh c)) in
  match r with
  | HttpErr e => ret (Err e)
  | HttpOk resp =>
      if negb (StatusCode resp =? 200) then
        ret (Err ("token refresh failed: " +:+ Body resp))
      else
        match json_Decode (Body resp) with
        | Err e => ret (Err e)
        | Ok tokenResp =>
            let* now := time_Now in
            let stored := stored_of tokenResp now in
            let* s := saveToken stored in
            match s with
            | Err e => ret (Err e)
            | Ok _ => ret (Ok stored)
            end
        end
  end.

Definition getValidToken : M (result string) :=
  let* l := loadToken in
  match l with
  | Err _ => ret (Err "not authenticated - run 'oura auth' first")
  | Ok token =>
      let* now := time_Now in
      if Time_After (Time_Add now (5 * Minute)) (ExpiresAt token) then
        let* r := refreshToken (RefreshToken token) in
        match r with
        | Err e =>
            ret (Err ("token refresh failed - run 'oura auth' again: " +:+ e))
        | Ok newToken => ret (Ok (AccessToken newToken))
        end
      else ret (Ok (AccessToken token))
  end.

(** ** API client *)

Definition api_url (endpoint : string) (params : Values) : string :=
  match params with
  | [] => apiBase +:+ endpoint
  | _ :: _ => apiBase +:+ endpoint +:+ "?" +:+ url_Encode params
  end.

Definition apiGet (endpoint : string) (params : Values) : M (result string) :=
  let* t := getValidToken in
  match t with
  | Err e => ret (Err e)
  | Ok token =>
      let* r := http_Do (GetBearer (api_url endpoint params)
                           ("Bearer " +:+ token)) in
      match r with
      | HttpErr e => ret (Err e)
      | HttpOk resp =>
          if negb (StatusCode resp =? 200) then
            ret (Err ("API error " +:+ fmt_d (StatusCode resp) +:+ ": "
                      +:+ Body resp))
          else ret (Ok (Body resp))
      end
  end.

(** ** The [auth] command *)

Definition exchange_form (code : string) (c : Config) : Values :=
  [("grant_type", "authorization_code"); ("code", code);
   ("redirect_uri", redirectURI);
   ("client_id", ClientID c); ("client_secret", ClientSecret c)].

Definition exchangeCode (code : string) : M unit :=
  let* c := get_config in
  let* r := http_Do (PostForm tokenURL (exchange_form code c)) in
  match r with
  | HttpErr e =>
      run* Eprint ("Token exchange failed: " +:+ e +:+ nl) in os_Exit 1
  | HttpOk resp =>
      if negb (StatusCode resp =? 200) then
        run* Eprint ("Token exchange failed: " +:+ Body resp +:+ nl) in
        os_Exit 1
      else
        match json_Decode (Body resp) with
        | Err e =>
            run* Eprint ("Failed to parse token: " +:+ e +:+ nl) in os_Exit 1
        | Ok tokenResp =>
            let* now := time_Now in
            let stored := stored_of tokenResp now in
            let* s := saveToken stored in
            match s with
            | Err e =>
                run* Eprint ("Failed to save token: " +:+ e +:+ nl) in
                os_Exit 1
            | Ok _ => Println "✓ Authenticated successfully!"
            end
        end
  end.

Definition openBrowser (url : string) : M unit :=
  let* goos := runtime_GOOS in
  if String.eqb goos "darwin" then cmd_Start "open" [url]
  else if String.eqb goos "linux" then cmd_Start "xdg-open" [url]
  else if String.eqb goos "windows" then
    cmd_Start "rundll32" ["url.dll,FileProtocolHandler"; url]
  else ret tt.

(** [state := fmt.Sprintf("%d", time.Now().UnixNano())] *)
Definition newState : M string :=
  let* now := time_Now in
  ret (fmt_d (Time_UnixNano now)).

Definition auth_params (state : string) (c : Config) : Values :=
  [("client_id", ClientID c); ("redirect_uri", redirectURI);
   ("response_type", "code");
   ("scope", "daily heartrate personal workout spo2 stress heart_health");
   ("state", state)].

Definition doAuth : M unit :=
  let* state := newState in
  let* c := get_config in
  let fullAuthURL := authURL +:+ "?" +:+ url_Encode (auth_params state c) in
  run* Println "Opening browser for authentication..." in
  run* Println "If it doesn't open, visit:" in
  run* Println fullAuthURL in
  run* openBrowser fullAuthURL in
  let* b := await state in
  match b with
  | Auth.GotCode code =>
      run* server_Close ":8081" in
      exchangeCode code
  | Auth.GotErr err =>
      run* server_Close ":8081" in
      run* Eprint ("Auth error: " +:+ err +:+ nl) in
      os_Exit 1
  | Auth.TimerFired =>
      run* server_Close ":8081" in
      run* Eprint ("Auth timeout" +:+ nl) in
      os_Exit 1
  end.

(** ** Fetch functions *)

Definition day_window (date : string) : Values :=
  [("start_date", add_days date (-1)); ("end_date", add_days date 1)].

Definition day_only (date : string) : Values :=
  [("start_date", date); ("end_date", date)].

(** [fmt.Fprintf(os.Stderr, "Error: %v\n", err); os.Exit(1)] *)
Definition fatal {A} (err : string) : M A :=
  run* Eprint ("Error: " +:+ err +:+ nl) in os_Exit 1.

Definition fetchSleep (date : string) : M unit :=
  let params := day_window date in
  let* daily := apiGet "/daily_sleep" params in
  let dailySleep :=
    match daily with
    | Ok dailyBody =>
        List.find (fun r => String.eqb (daily_sleep_Day r) date)
          (data_daily_sleep dailyBody)
    | Err _ => None
    end in
  let* r := apiGet "/sleep" params in
  match r with
  | Err err => fatal err
  | Ok body =>
      let sleepRecords :=
        List.filter (fun s => String.eqb (sleep_Day s) date) (data_sleep body) in
      match sleepRecords, dailySleep with
      | [], None => Println ("No sleep data for " +:+ date)
      | _, _ => Print (print_sleep date dailySleep sleepRecords)
      end
  end.

Definition fetchReadiness (date : string) : M unit :=
  let* r := apiGet "/daily_readiness" (day_window date) in
  match r with
  | Err err => fatal err
  | Ok body =>
      match List.find (fun r => String.eqb (readiness_Day r) date)
              (data_readiness body) with
      | None => Println ("No readiness data for " +:+ date)
      | Some r => Print (print_readiness r)
      end
  end.

Definition fetchActivity (date : string) : M unit :=
  let* r := apiGet "/daily_activity" (day_window date) in
  match r with
  | Err err => fatal err
  | Ok body =>
      match List.find (fun a => String.eqb (activity_Day a) date)
              (data_activity body) with
      | None => Println ("No activity data for " +:+ date)
      | Some a => Print (print_activity a)
      end
  end.

Definition fetchHeartRate (date : string) : M unit :=
  let* r := apiGet "/heartrate" (day_only date) in
  match r with
  | Err err => fatal err
  | Ok body =>
      let data := data_heartrate body in
      match data with
      | [] => Println ("No heart rate data for " +:+ date)
      | _ :: _ =>
          run* Print ("❤️  Heart Rate - " +:+ date +:+ nl) in
          run* Println rule in
          run* Print ("Readings:  " +:+ fmt_d (Z.of_nat (length data)) +:+ nl) in
          run* Print ("Min:       " +:+ fmt_d (hr_min data) +:+ " bpm" +:+ nl) in
          run* Print ("Max:       " +:+ fmt_d (hr_max data) +:+ " bpm" +:+ nl) in
          Print ("Average:   " +:+ fmt_d (hr_avg data) +:+ " bpm" +:+ nl)
      end
  end.

Definition fetchStress (date : string) : M unit :=
  let* r := apiGet "/daily_stress" (day_only date) in
  match r with
  | Err err => fatal err
  | Ok body =>
      match data_stress body with
      | [] => Println ("No stress data for " +:+ date)
      | s :: _ => Print (print_stress s)
      end
  end.

Definition fetchSpO2 (date : string) : M unit :=
  let* r := apiGet "/daily_spo2" (day_only date) in
  match r with
  | Err err => fatal err
  | Ok body =>
      match data_spo2 body with
      | [] => Println ("No SpO2 data for " +:+ date)
      | s :: _ => Print (print_spo2 s)
      end
  end.

Definition fetchResilience (date : string) : M unit :=
  let* r := apiGet "/daily_resilience" (day_only date) in
  match r with
  | Err err => fatal err
  | Ok body =>
      match data_resilience body with
      | [] => Println ("No resilience data for " +:+ date)
      | r :: _ => Print (print_resilience r)
      end
  end.

Definition fetchVO2Max (date : string) : M unit :=
  let* r := apiGet "/vO2_max" (day_only date) in
  match r with
  | Err err => fatal err
  | Ok body =>
      match data_vo2 body with
      | [] => Println ("No VO2 max data for " +:+ date)
      | v :: _ => Print (print_vo2 v)
      end
  end.

Definition fetchWorkouts (date : string) : M unit :=
  let* r := apiGet "/workout" (day_only date) in
  match r with
  | Err err => fatal err
  | Ok body =>
      match data_workout body with
      | [] => Println ("No workout data for " +:+ date)
      | ws => Print (print_workouts date ws)
      end
  end.

Definition banner (date : string) : string :=
  "╔══════════════════════════════════════╗" +:+ nl
  +:+ "║      OURA METRICS - " +:+ fmt_s_left10 date +:+ "       ║" +:+ nl
  +:+ "╚══════════════════════════════════════╝" +:+ nl +:+ nl.

Definition fetchAll (date : string) : M unit :=
  run* Print (banner date) in
  run* fetchReadiness date in
  run* Println EmptyString in
  run* fetchSleep date in
  run* Println EmptyString in
  run* fetchActivity date in
  run* Println EmptyString in
  run* fetchStress date in
  run* Println EmptyString in
  fetchHeartRate date.

Definition endpoints : list string :=
  ["/sleep"; "/daily_sleep"; "/daily_activity"; "/daily_readiness";
   "/heartrate"; "/daily_stress"; "/daily_spo2"; "/daily_resilience";
   "/vO2_max"; "/workout"].

(** The loop of [fetchJSON]: an endpoint whose request fails is skipped. *)
Fixpoint fetchJSON_loop (eps : list string) (params : Values)
    (result : gmap string string) : M (gmap string string) :=
  match eps with
  | [] => ret result
  | ep :: eps' =>
      let* r := apiGet ep params in
      match r with
      | Err _ => fetchJSON_loop eps' params result
      | Ok body =>
          fetchJSON_loop eps' params (<[TrimPrefix ep "/" := body]> result)
      end
  end.

Definition fetchJSON (date : string) : M unit :=
  let* result := fetchJSON_loop endpoints (day_only date) ∅ in
  Println (json_MarshalIndent_raw result).

(** ** Entry point *)

Definition printUsage : M unit := Println usage.

Definition getDateArg : M string :=
  let* args := os_Args in
  match args with
  | _ :: _ :: date :: _ => ret date
  | _ =>
      let* now := time_Now in
      ret (format_date now)
  end.

Definition today : M string :=
  let* now := time_Now in
  ret (format_date now).

Definition dispatch (cmd : string) : M unit :=
  if String.eqb cmd "auth" then doAuth
  else if String.eqb cmd "today" then let* d := today in fetchAll d
  else if String.eqb cmd "sleep" then let* d := getDateArg in fetchSleep d
  else if String.eqb cmd "activity" then let* d := getDateArg in fetchActivity d
  else if String.eqb cmd "readiness" then let* d := getDateArg in fetchReadiness d
  else if String.eqb cmd "heartrate" then let* d := getDateArg in fetchHeartRate d
  else if String.eqb cmd "stress" then let* d := getDateArg in fetchStress d
  else if String.eqb cmd "spo2" then let* d := getDateArg in fetchSpO2 d
  else if String.eqb cmd "resilience" then let* d := getDateArg in fetchResilience d
  else if String.eqb cmd "vo2" then let* d := getDateArg in fetchVO2Max d
  else if String.eqb cmd "workout" then let* d := getDateArg in fetchWorkouts d
  else if String.eqb cmd "all" then let* d := getDateArg in fetchAll d
  else if String.eqb cmd "json" then let* d := getDateArg in fetchJSON d
  else run* printUsage in os_Exit 1.

Definition main : M unit :=
  let* args := os_Args in
  match args with
  | _ :: cmd :: _ =>
      let* err := loadConfig in
      match err with
      | Some e => run* Eprint (e +:+ nl) in os_Exit 1
      | None => dispatch cmd
      end
  | _ => run* printUsage in os_Exit 1
  end.

(** The process as the shell sees it: exit status, and what was written. *)
Definition run_main (w : World) : Z * World :=
  let r := main w in (exit_status r.1, r.2).

End Program.

(** ** Paths and observations used in the statements *)

Section Paths.
Context `{Extern}.

Definition config_dir (w : World) : string :=
  filepath_Join [w_home w; ".config"; "oura"].

Definition token_path (w : World) : string :=
  filepath_Join [config_dir w; "token.json"].

(** The world after [getConfigDir] has run once more. *)
Definition visited (w : World) : World :=
  log_call (OpMkdirAll (config_dir w) 448) w.

(** The refresh request [getValidToken] would send for [token] in [w]. *)
Definition refresh_request (token : StoredToken) (w : World) : HttpRequest :=
  PostForm tokenURL (refresh_form (RefreshToken token) (w_config w)).

End Paths.

Definition is_write (o : OsCall) : bool :=
  match o with OpWriteFile _ _ _ => true | _ => false end.

(** ** A stand-in for the libraries

    Used only to run the program on concrete worlds.  Its JSON functions
    are finite tables from the texts that occur in those worlds to the
    values [encoding/json] reads from them; paths are joined with [/]. *)
Module Fixture.

(** 2026-01-10T12:00:00Z *)
Definition noon : Time := 1768046400000000000.

Definition field (k v : string) : string :=
  "  " +:+ dq +:+ k +:+ dq +:+ ": " +:+ dq +:+ v +:+ dq.

Definition token_text (access refresh expires : string) : string :=
  "{" +:+ nl +:+ field "access_token" access +:+ "," +:+ nl
  +:+ field "refresh_token" refresh +:+ "," +:+ nl
  +:+ field "expires_at" expires +:+ nl +:+ "}".

Definition fresh : StoredToken :=
  {| AccessToken := "at-fresh"; RefreshToken := "rt-fresh";
     ExpiresAt := noon + 60 * Minute |}.

Definition edge : StoredToken :=
  {| AccessToken := "at-edge"; RefreshToken := "rt-edge";
     ExpiresAt := noon + 5 * Minute |}.

Definition stale : StoredToken :=
  {| AccessToken := "at-stale"; RefreshToken := "rt-stale";
     ExpiresAt := noon - 60 * Minute |}.

Definition fresh_text : string :=
  token_text "at-fresh" "rt-fresh" "2026-01-10T13:00:00Z".
Definition edge_text : string :=
  token_text "at-edge" "rt-edge" "2026-01-10T12:05:00Z".
Definition stale_text : string :=
  token_text "at-stale" "rt-stale" "2026-01-10T11:00:00Z".

Definition tokens : list (string * StoredToken) :=
  [(fresh_text, fresh); (edge_text, edge); (stale_text, stale)].

Definition token_eqb (a b : StoredToken) : bool :=
  String.eqb (AccessToken a) (AccessToken b)
  && String.eqb (RefreshToken a) (RefreshToken b)
  && (ExpiresAt a =? ExpiresAt b).

Definition unmarshal_token (data : string) : result StoredToken :=
  match List.find (fun p => String.eqb p.1 data) tokens with
  | Some p => Ok p.2
  | None => Err "unexpected end of JSON input"
  end.

Definition marshal_token (t : StoredToken) : result string :=
  match List.find (fun p => token_eqb p.2 t) tokens with
  | Some p => Ok p.1
  | None => Err "json: unsupported value"
  end.

Definition config_text : string :=
  "{" +:+ dq +:+ "client_id" +:+ dq +:+ ": " +:+ dq +:+ "id-1" +:+ dq +:+ ", "
  +:+ dq +:+ "client_secret" +:+ dq +:+ ": " +:+ dq +:+ "secret-1" +:+ dq +:+ "}".

Definition credentials : Config :=
  {| ClientID := "id-1"; ClientSecret := "secret-1" |}.

Definition unmarshal_config (data : string) : result Config :=
  if String.eqb data config_text then Ok credentials
  else Err "unexpected end of JSON input".

(** [{"data":[]}] *)
Definition no_data : string :=
  "{" +:+ dq +:+ "data" +:+ dq +:+ ":[]}".


Definition reading (bpm : Z) : HeartRateRecord :=
  {| hr_Timestamp := "2026-01-10T08:00:00+00:00"; BPM := bpm;
     hr_Source := "rest" |}.

Definition reading_text (bpm : string) : string :=
  "{" +:+ dq +:+ "bpm" +:+ dq +:+ ":" +:+ bpm +:+ ","
  +:+ dq +:+ "source" +:+ dq +:+ ":" +:+ dq +:+ "rest" +:+ dq +:+ ","
  +:+ dq +:+ "timestamp" +:+ dq +:+ ":"
  +:+ dq +:+ "2026-01-10T08:00:00+00:00" +:+ dq +:+ "}".

Definition data_text (items : list string) : string :=
  "{" +:+ dq +:+ "data" +:+ dq +:+ ":[" +:+ String.concat "," items +:+ "]}".

(** A heart-rate body with readings 61, 58 and 72, and one with readings
    1200 and 1500. *)
Definition three_readings : string :=
  data_text [reading_text "61"; reading_text "58"; reading_text "72"].
Definition high_readings : string :=
  data_text [reading_text "1200"; reading_text "1500"].

Definition heartrate_of (body : string) : list HeartRateRecord :=
  if String.eqb body three_readings
  then [reading 61; reading 58; reading 72]
  else if String.eqb body high_readings
  then [reading 1200; reading 1500]
  else [].

(** [{"error":"invalid_grant"}] *)
Definition invalid_grant : string :=
  "{" +:+ dq +:+ "error" +:+ dq +:+ ":" +:+ dq +:+ "invalid_grant" +:+ dq +:+ "}".

Definition lib : Extern :=
  {| filepath_Join := String.concat "/";
     url_Encode := fun v =>
       String.concat "&" (map (fun p => p.1 +:+ "=" +:+ p.2) v);
     json_MarshalIndent := marshal_token;
     json_Unmarshal_token := unmarshal_token;
     json_Unmarshal_config := unmarshal_config;
     json_Decode := fun _ => Err "unexpected end of JSON input";
     json_MarshalIndent_raw := fun m =>
       if decide (m = ∅) then "{}" else "{...}";
     format_date := fun _ => "2026-01-10";
     add_days := fun d _ => d;
     fmt_s_left10 := fun s => s;
     DailySleepRecord := string;
     SleepRecord := string;
     ReadinessRecord := string;
     ActivityRecord := string;
     StressRecord := unit;
     SpO2Record := unit;
     ResilienceRecord := unit;
     VO2MaxRecord := unit;
     WorkoutRecord := unit;
     daily_sleep_Day := fun d => d;
     sleep_Day := fun d => d;
     readiness_Day := fun d => d;
     activity_Day := fun d => d;
     data_daily_sleep := fun _ => [];
     data_sleep := fun _ => [];
     data_readiness := fun _ => [];
     data_activity := fun _ => [];
     data_heartrate := heartrate_of;
     data_stress := fun _ => [];
     data_spo2 := fun _ => [];
     data_resilience := fun _ => [];
     data_vo2 := fun _ => [];
     data_workout := fun _ => [];
     print_sleep := fun _ _ _ => "sleep report";
     print_readiness := fun _ => "readiness report";
     print_activity := fun _ => "activity report";
     print_stress := fun _ => "stress report";
     print_spo2 := fun _ => "spo2 report";
     print_resilience := fun _ => "resilience report";
     print_vo2 := fun _ => "vo2 report";
     print_workouts := fun _ _ => "workout report" |}.

Definition home : string := "/home/u".
Definition dir : string := "/home/u/.config/oura".

Definition file (data : string) : File := {| f_mode := 384; f_data := data |}.

(** The configuration file, and a token file when [token] is given. *)
Definition files (token : option string) : gmap string File :=
  let base := {[ dir +:+ "/config.json" := file config_text ]} in
  match token with
  | Some text => <[dir +:+ "/token.json" := file text]> base
  | None => base
  end.

(** A process about to run at [noon] with the given token file, remote
    behaviour, listener schedule and arguments. *)
Definition world (token : option string)
    (net : nat -> HttpRequest -> HttpResult)
    (schedule : list Auth.Event) (args : list string) : World :=
  {| w_clock := fun _ => noon; w_reads := 0; w_home := home;
     w_goos := "linux"; w_files := files token;
     w_writable := fun _ => true;
     w_fault := fun _ => FailsAtOpen; w_net := net; w_schedule := schedule;
     w_http := []; w_calls := []; w_stdout := EmptyString;
     w_stderr := EmptyString; w_config := credentials; w_args := args |}.

(** The token endpoint rejects every request with 401; the data API
    answers every request with an empty data array. *)
Definition rejecting : nat -> HttpRequest -> HttpResult :=
  fun _ q =>
    match q with
    | PostForm _ _ => HttpOk {| StatusCode := 401; Body := invalid_grant |}
    | GetBearer _ _ => HttpOk {| StatusCode := 200; Body := no_data |}
    end.

(** The data API answers every request with the given body. *)
Definition answering (body : string) : nat -> HttpRequest -> HttpResult :=
  fun _ _ => HttpOk {| StatusCode := 200; Body := body |}.

(** Nothing is reachable. *)
Definition offline : nat -> HttpRequest -> HttpResult :=
  fun _ _ => HttpErr "dial tcp: connection refused".

End Fixture.

(** ** The category commands, by name *)

Inductive Category : Type :=
| Sleep | Activity | Readiness | HeartRate | Stress | SpO2 | Resilience
| VO2Max | Workout.

Section Categories.
Context `{Extern}.

Definition fetch (c : Category) : string -> M unit :=
  match c with
  | Sleep => fetchSleep
  | Activity => fetchActivity
  | Readiness => fetchReadiness
  | HeartRate => fetchHeartRate
  | Stress => fetchStress
  | SpO2 => fetchSpO2
  | Resilience => fetchResilience
  | VO2Max => fetchVO2Max
  | Workout => fetchWorkouts
  end.

(** The request whose body the report is made from. *)
Definition endpoint (c : Category) : string :=
  match c with
  | Sleep => "/sleep"
  | Activity => "/daily_activity"
  | Readiness => "/daily_readiness"
  | HeartRate => "/heartrate"
  | Stress => "/daily_stress"
  | SpO2 => "/daily_spo2"
  | Resilience => "/daily_resilience"
  | VO2Max => "/vO2_max"
  | Workout => "/workout"
  end.

Definition params (c : Category) (date : string) : Values :=
  match c with
  | Sleep | Activity | Readiness => day_window date
  | _ => day_only date
  end.

(** What a command requests before that: [fetchSleep] first asks for
    [/daily_sleep], and goes on whatever the answer. *)
Definition before (c : Category) (date : string) : M unit :=
  match c with
  | Sleep => run* apiGet "/daily_sleep" (day_window date) in ret tt
  | _ => ret tt
  end.

(** The category as the no-data line names it. *)
Definition label (c : Category) : string :=
  match c with
  | Sleep => "sleep"
  | Activity => "activity"
  | Readiness => "readiness"
  | HeartRate => "heart rate"
  | Stress => "stress"
  | SpO2 => "SpO2"
  | Resilience => "resilience"
  | VO2Max => "VO2 max"
  | Workout => "workout"
  end.

(** Every decoder finds an empty [data] array in [body]. *)
Definition no_records (body : string) : Prop :=
  data_daily_sleep body = [] /\ data_sleep body = [] /\
  data_readiness body = [] /\ data_activity body = [] /\
  data_heartrate body = [] /\ data_stress body = [] /\
  data_spo2 body = [] /\ data_resilience body = [] /\
  data_vo2 body = [] /\ data_workout body = [].

(** A token is on file that needs no refresh at any reading of the clock. *)
Definition authenticated (w : World) : Prop :=
  exists f token,
    w_files w !! token_path w = Some f /\
    json_Unmarshal_token (f_data f) = Ok token /\
    forall n, w_clock w n + 5 * Minute <= ExpiresAt token.

(** The API answers every request 200 with an empty [data] array. *)
Definition answers_empty (w : World) : Prop :=
  forall n url authorization, exists body,
    w_net w n (GetBearer url authorization)
      = HttpOk {| StatusCode := 200; Body := body |} /\
    no_records body.

End Categories.

(** Text written to standard output, piece after piece. *)
Definition printed (pieces : list string) (w : World) : World :=
  fold_left (fun w s => put_stdout s w) pieces w.

(** Sum and least element of the readings [first :: rest]. *)
Definition total (l : list Z) : Z := foldr Z.add 0 l.
Definition least (first : Z) (rest : list Z) : Z := foldr Z.min first rest.

(** A call that always returns and writes to neither output stream. *)
Definition silent {A} (m : M A) : Prop :=
  forall w, exists a w',
    m w = (Done a, w') /\
    w_stdout w' = w_stdout w /\ w_stderr w' = w_stderr w.

(** ** Further functions of [main.go] *)

(** [formatDuration]: Go's [/] and [%] on [int] truncate towards zero. *)
Definition formatDuration (seconds : Z) : string :=
  let h := Z.quot seconds 3600 in
  let m := Z.quot (Z.rem seconds 3600) 60 in
  if 0 <? h then fmt_d h +:+ "h " +:+ fmt_d m +:+ "m"
  else fmt_d m +:+ "m".

(** The commands [main]'s switch knows. *)
Definition commands : list string :=
  ["auth"; "today"; "sleep"; "activity"; "readiness"; "heartrate"; "stress";
   "spo2"; "resilience"; "vo2"; "workout"; "all"; "json"].

(** Calls made one after the other, as statements in a function body. *)
Fixpoint sequence (steps : list (M unit)) : M unit :=
  match steps with
  | [] => ret tt
  | [m] => m
  | m :: rest => run* m in sequence rest
  end.

(** Characters [%d] can produce. *)
Definition numeric (c : Ascii.ascii) : bool :=
  let n := Ascii.nat_of_ascii c in
  ((48 <=? n) && (n <=? 57))%nat || (n =? 45)%nat.

Fixpoint all_numeric (s : string) : bool :=
  match s with
  | EmptyString => true
  | String c s' => numeric c && all_numeric s'
  end.

Section MoreObservations.
Context `{Extern}.

Definition config_path (w : World) : string :=
  filepath_Join [config_dir w; "config.json"].

(** The statements of [fetchAll] after the banner. *)
Definition fetchAll_steps (date : string) : list (M unit) :=
  [fetchReadiness date; Println EmptyString;
   fetchSleep date; Println EmptyString;
   fetchActivity date; Println EmptyString;
   fetchStress date; Println EmptyString;
   fetchHeartRate date].

(** The request [apiGet] sends once it holds [token]. *)
Definition api_request (endpoint : string) (params : Values) (token : string)
  : HttpRequest :=
  GetBearer (api_url endpoint params) ("Bearer " +:+ token).

(** The request [exchangeCode] sends. *)
Definition exchange_request (code : string) (w : World) : HttpRequest :=
  PostForm tokenURL (exchange_form code (w_config w)).

End MoreObservations.

(** Greatest element of the readings [first :: rest]. *)
Definition greatest (first : Z) (rest : list Z) : Z := foldr Z.max first rest.

(** ** A stand-in whose token endpoint grants

    [Fixture.lib] with a token response it can decode and the record made
    from it. *)
Module Granting.

(** [{"access_token":"at-new","refresh_token":"rt-new","expires_in":86400,"token_type":"bearer"}] *)
Definition grant_text : string :=
  "{" +:+ dq +:+ "access_token" +:+ dq +:+ ":" +:+ dq +:+ "at-new" +:+ dq +:+ ","
  +:+ dq +:+ "refresh_token" +:+ dq +:+ ":" +:+ dq +:+ "rt-new" +:+ dq +:+ ","
  +:+ dq +:+ "expires_in" +:+ dq +:+ ":86400,"
  +:+ dq +:+ "token_type" +:+ dq +:+ ":" +:+ dq +:+ "bearer" +:+ dq +:+ "}".

Definition grant : TokenResponse :=
  {| resp_AccessToken := "at-new"; resp_RefreshToken := "rt-new";
     resp_ExpiresIn := 86400; resp_TokenType := "bearer" |}.

Definition decode (body : string) : result TokenResponse :=
  if String.eqb body grant_text then Ok grant
  else Err "unexpected end of JSON input".

(** The record stored at noon for [grant]: it expires a day later. *)
Definition granted : StoredToken :=
  {| AccessToken := "at-new"; RefreshToken := "rt-new";
     ExpiresAt := Fixture.noon + 86400 * Second |}.

Definition granted_text : string :=
  Fixture.token_text "at-new" "rt-new" "2026-01-11T12:00:00Z".

Definition tokens : list (string * StoredToken) :=
  (granted_text, granted) :: Fixture.tokens.

Definition unmarshal_token (data : string) : result StoredToken :=
  match List.find (fun p => String.eqb p.1 data) tokens with
  | Some p => Ok p.2
  | None => Err "unexpected end of JSON input"
  end.

Definition marshal_token (t : StoredToken) : result string :=
  match List.find (fun p => Fixture.token_eqb p.2 t) tokens with
  | Some p => Ok p.1
  | None => Err "json: unsupported value"
  end.

Definition lib : Extern :=
  {| filepath_Join := @filepath_Join Fixture.lib;
     url_Encode := @url_Encode Fixture.lib;
     json_MarshalIndent := marshal_token;
     json_Unmarshal_token := unmarshal_token;
     json_Unmarshal_config := @json_Unmarshal_config Fixture.lib;
     json_Decode := decode;
     json_MarshalIndent_raw := fun m =>
       String.concat "," (map (fun p => p.1 +:+ ":" +:+ p.2) (map_to_list m));
     format_date := @format_date Fixture.lib;
     add_days := @add_days Fixture.lib;
     fmt_s_left10 := @fmt_s_left10 Fixture.lib;
     DailySleepRecord := string;
     SleepRecord := string;
     ReadinessRecord := string;
     ActivityRecord := string;
     StressRecord := unit;
     SpO2Record := unit;
     ResilienceRecord := unit;
     VO2MaxRecord := unit;
     WorkoutRecord := unit;
     daily_sleep_Day := fun d => d;
     sleep_Day := fun d => d;
     readiness_Day := fun d => d;
     activity_Day := fun d => d;
     data_daily_sleep := fun _ => [];
     data_sleep := fun _ => [];
     (* a body that is a list of days, one per line *)
     data_readiness := fun body =>
       if String.eqb body EmptyString then [] else [body];
     data_activity := fun _ => [];
     data_heartrate := Fixture.heartrate_of;
     data_stress := fun _ => [];
     data_spo2 := fun _ => [];
     data_resilience := fun _ => [];
     data_vo2 := fun _ => [];
     data_workout := fun _ => [];
     print_sleep := fun _ _ _ => "sleep report";
     print_readiness := fun _ => "readiness report";
     print_activity := fun _ => "activity report";
     print_stress := fun _ => "stress report";
     print_spo2 := fun _ => "spo2 report";
     print_resilience := fun _ => "resilience report";
     print_vo2 := fun _ => "vo2 report";
     print_workouts := fun _ _ => "workout report" |}.

(** The token endpoint grants; the data API answers every request with the
    given body. *)
Definition granting (body : string) : nat -> HttpRequest -> HttpResult :=
  fun _ q =>
    match q with
    | PostForm _ _ => HttpOk {| StatusCode := 200; Body := grant_text |}
    | GetBearer _ _ => HttpOk {| StatusCode := 200; Body := body |}
    end.

End Granting.

(** ** Observations on the callback session *)

(** A code that came with the session's state, in a request of [evs]. *)
Definition checked_code (state : string) (evs : list Auth.Event)
    (code : string) : Prop :=
  code <> EmptyString /\
  exists r, Auth.Arrive r ∈ evs /\
            Auth.query_state r = state /\ Auth.query_code r = code.

(** Every code in flight is a checked one: those handlers are about to
    send, those in the channel, and the one the controller holds. *)
Definition codes_checked (state : string) (evs : list Auth.Event)
    (s : Auth.Session) : Prop :=
  Auth.state_token s = state /\
  (forall c, c ∈ Auth.codeChan s -> checked_code state evs c) /\
  (forall i ops c, Auth.goroutines s !! i = Some ops ->
                   Auth.SendCode c ∈ ops -> checked_code state evs c) /\
  (forall c, Auth.controller s = Auth.Woken (Auth.GotCode c) \/
             Auth.controller s = Auth.Stopped (Auth.GotCode c) ->
             checked_code state evs c).

(** The select has taken the case [b]. *)
Definition took (b : Auth.Branch) (s : Auth.Session) : Prop :=
  Auth.controller s = Auth.Woken b \/ Auth.controller s = Auth.Stopped b.

(** The API answers every request 200 with a body that depends on the URL
    alone. *)
Definition serves (serve : string -> string) (w : World) : Prop :=
  forall n url authorization,
    w_net w n (GetBearer url authorization)
    = HttpOk {| StatusCode := 200; Body := serve url |}.

(** The map [fetchJSON] builds when every request is answered by [serve]:
    one entry per endpoint, under the endpoint's name without its slash. *)
Definition full_dump `{Extern} (serve : string -> string) (date : string)
  : gmap string string :=
  let body ep := serve (api_url ep (day_only date)) in
  <["workout" := body "/workout"]>
    (<["vO2_max" := body "/vO2_max"]>
       (<["daily_resilience" := body "/daily_resilience"]>
          (<["daily_spo2" := body "/daily_spo2"]>
             (<["daily_stress" := body "/daily_stress"]>
                (<["heartrate" := body "/heartrate"]>
                   (<["daily_readiness" := body "/daily_readiness"]>
                      (<["daily_activity" := body "/daily_activity"]>
                         (<["daily_sleep" := body "/daily_sleep"]>
                            (<["sleep" := body "/sleep"]> ∅))))))))).

(** What [fetchJSON] keeps of the reply to a request: the body, when the
    status is 200. *)
Definition kept (r : HttpResult) : option string :=
  match r with
  | HttpOk resp => if StatusCode resp =? 200 then Some (Body resp) else None
  | HttpErr _ => None
  end.

(** The reply to a data request depends on its URL alone. *)
Definition replies (reply : string -> HttpResult) (w : World) : Prop :=
  forall n url authorization,
    w_net w n (GetBearer url authorization) = reply url.

(** One round of the loop of [fetchJSON] on the map built so far. *)
Definition dump_step `{Extern} (reply : string -> HttpResult) (ps : Values)
    (m : gmap string string) (ep : string) : gmap string string :=
  match kept (reply (api_url ep ps)) with
  | Some body => <[TrimPrefix ep "/" := body]> m
  | None => m
  end.

(** The map [fetchJSON] builds under [replies]. *)
Definition partial_dump `{Extern} (reply : string -> HttpResult)
    (date : string) : gmap string string :=
  fold_left (dump_step reply (day_only date)) endpoints ∅.

(** * Properties *)

(** ** The token file *)

Section TokenFile.
Context `{Extern}.

Lemma getConfigDir_eq (w : World) :
  getConfigDir w = (Done (config_dir w), visited w).
Proof. reflexivity. Qed.

Lemma getTokenPath_eq (w : World) :
  getTokenPath w = (Done (token_path w), visited w).
Proof. reflexivity. Qed.

(** [loadToken] only reads: it returns what [json.Unmarshal] makes of the
    token file, and leaves a [MkdirAll] behind. *)
Lemma loadToken_eq (w : World) :
  loadToken w =
  (Done match w_files w !! token_path w with
        | Some f => json_Unmarshal_token (f_data f)
        | None => Err ("open " +:+ token_path w +:+ ": no such file or directory")
        end,
   visited w).
Proof.
  unfold loadToken, bind. rewrite getTokenPath_eq.
  unfold os_ReadFile. cbn.
  destruct (w_files w !! token_path w) as [f|]; cbn; [|reflexivity].
  destruct (json_Unmarshal_token (f_data f)); reflexivity.
Qed.

Lemma loadToken_world (w w0 : World) (r : result StoredToken) :
  loadToken w = (Done r, w0) -> w0 = visited w.
Proof. rewrite loadToken_eq. congruence. Qed.



End TokenFile.


(** ** Refresh *)

Section Refresh.
Context `{Extern}.

(** [saveToken] issues no HTTP request. *)
Lemma saveToken_http (token : StoredToken) (w : World) :
  w_http (saveToken token w).2 = w_http w.
Proof.
  unfold saveToken. destruct (json_MarshalIndent token); [|reflexivity].
  unfold bind. rewrite getTokenPath_eq. unfold os_WriteFile. cbn.
  destruct (w_writable w (token_path w));
    [|destruct (w_fault w (token_path w))]; reflexivity.
Qed.

(** [refreshToken] issues exactly one request: the refresh POST. *)
Lemma refreshToken_http (refresh : string) (w : World) :
  w_http (refreshToken refresh w).2
  = w_http w ++ [PostForm tokenURL (refresh_form refresh (w_config w))].
Proof.
  unfold refreshToken, bind, get_config, http_Do. cbn.
  destruct (w_net w _ _) as [e|resp]; [reflexivity|].
  destruct (negb (StatusCode resp =? 200)); [reflexivity|].
  destruct (json_Decode (Body resp)) as [t|e]; [|reflexivity].
  unfold time_Now. cbn.
  match goal with |- context [saveToken ?t ?w'] =>
    pose proof (saveToken_http t w') as Hs; destruct (saveToken t w') as [[[[]|]|] ?]
  end; cbn in *; exact Hs.
Qed.

(** A refresh answered with a status other than 200 fails with the body
    in its message and changes nothing but the request log. *)
Lemma refreshToken_rejected (refresh : string) (w : World) (resp : HttpResponse) :
  w_net w (length (w_http w)) (PostForm tokenURL (refresh_form refresh (w_config w)))
    = HttpOk resp ->
  StatusCode resp <> 200 ->
  refreshToken refresh w
  = (Done (Err ("token refresh failed: " +:+ Body resp)),
     log_http (PostForm tokenURL (refresh_form refresh (w_config w))) w).
Proof.
  intros Hnet Hst. unfold refreshToken, bind, get_config, http_Do. cbn.
  rewrite Hnet. apply Z.eqb_neq in Hst. rewrite Hst. reflexivity.
Qed.

Local Arguments refreshToken : simpl never.

(** [getValidToken] once the token file has been read. *)
Lemma getValidToken_loaded (w : World) (token : StoredToken) :
  (loadToken w).1 = Done (Ok token) ->
  getValidToken w =
  if Time_After (Time_Add (w_clock w (w_reads w)) (5 * Minute)) (ExpiresAt token)
  then
    match refreshToken (RefreshToken token) (tick (visited w)) with
    | (Done (Ok newToken), w') => (Done (Ok (AccessToken newToken)), w')
    | (Done (Err e), w') =>
        (Done (Err ("token refresh failed - run 'oura auth' again: " +:+ e)), w')
    | (Exited c, w') => (Exited c, w')
    end
  else (Done (Ok (AccessToken token)), tick (visited w)).
Proof.
  intros Hload. unfold getValidToken, bind.
  rewrite loadToken_eq in *. cbn in Hload. injection Hload as ->.
  unfold time_Now. cbn.
  match goal with |- context [Time_After ?a ?b] => destruct (Time_After a b) end;
    [|reflexivity].
  match goal with |- context [refreshToken ?a ?b] =>
    destruct (refreshToken a b) as [[[t|e]|c] w'] end; reflexivity.
Qed.

(** C1, as the code has it.  [getValidToken] refreshes exactly when
    [expires_at] is less than five minutes after the current time: a token
    that expires five minutes from now or later is returned as stored, with
    no request sent and no file touched; otherwise the refresh request is
    sent before anything is returned. *)
Theorem refresh_exactly_when_due (w : World) (token : StoredToken) :
  (loadToken w).1 = Done (Ok token) ->
  (w_clock w (w_reads w) + 5 * Minute <= ExpiresAt token ->
   exists w',
     getValidToken w = (Done (Ok (AccessToken token)), w') /\
     w_http w' = w_http w /\ w_files w' = w_files w) /\
  (ExpiresAt token < w_clock w (w_reads w) + 5 * Minute ->
   exists r w',
     getValidToken w = (r, w') /\
     w_http w' = w_http w ++ [refresh_request token w]).
Proof.
  intros Hload. rewrite (getValidToken_loaded _ _ Hload).
  unfold Time_After, Time_Add. split; intros Hcmp.
  - apply Z.ltb_ge in Hcmp. rewrite Hcmp. eexists. split; [reflexivity|]. done.
  - apply Z.ltb_lt in Hcmp. rewrite Hcmp.
    pose proof (refreshToken_http (RefreshToken token) (tick (visited w))) as Hh.
    destruct (refreshToken (RefreshToken token) (tick (visited w)))
      as [[[t|e]|c] w']; cbn in Hh;
      do 2 eexists; (split; [reflexivity|exact Hh]).
Qed.

(** C2.  A refresh that the token endpoint answers with a status other
    than 200 makes [getValidToken] fail with an error that carries the
    response body; the files are as they were and no file was written. *)
Theorem refresh_failure_keeps_token (w : World) (token : StoredToken)
    (resp : HttpResponse) :
  (loadToken w).1 = Done (Ok token) ->
  ExpiresAt token < w_clock w (w_reads w) + 5 * Minute ->
  w_net w (length (w_http w)) (refresh_request token w) = HttpOk resp ->
  StatusCode resp <> 200 ->
  exists w',
    getValidToken w
    = (Done (Err ("token refresh failed - run 'oura auth' again: "
                  +:+ ("token refresh failed: " +:+ Body resp))), w') /\
    w_files w' = w_files w /\
    List.filter is_write (w_calls w') = List.filter is_write (w_calls w).
Proof.
  intros Hload Hdue Hnet Hst. rewrite (getValidToken_loaded _ _ Hload).
  unfold Time_After, Time_Add. apply Z.ltb_lt in Hdue. rewrite Hdue.
  rewrite (refreshToken_rejected _ _ resp); [|exact Hnet|exact Hst].
  eexists. split; [reflexivity|]. split; [reflexivity|].
  cbn. rewrite List.filter_app. cbn. apply app_nil_r.
Qed.

End Refresh.

(** A token that expires in an hour is returned as stored. *)
Lemma refresh_exactly_when_due_witness :
  let w := Fixture.world (Some Fixture.fresh_text) Fixture.offline [] [] in
  exists w',
    @getValidToken Fixture.lib w = (Done (Ok "at-fresh"), w') /\
    w_http w' = w_http w /\ w_files w' = w_files w.
Proof.
  intros w.
  destruct (@refresh_exactly_when_due Fixture.lib w Fixture.fresh eq_refl)
    as [Hkeep _].
  apply Hkeep. vm_compute. discriminate.
Defined.

(** A token that expired an hour ago: the refresh request is sent. *)
Example stale_token_is_refreshed :
  let w := Fixture.world (Some Fixture.stale_text) Fixture.rejecting [] [] in
  w_http (@getValidToken Fixture.lib w).2
  = [PostForm tokenURL
       [("grant_type", "refresh_token"); ("refresh_token", "rt-stale");
        ("client_id", "id-1"); ("client_secret", "secret-1")]].
Proof. vm_compute. reflexivity. Qed.

(** C1 as stated fails at the boundary: with [expires_at] exactly five
    minutes after the current time the stored token is returned and no
    request is sent. *)
Lemma no_refresh_at_the_boundary :
  let w := Fixture.world (Some Fixture.edge_text) Fixture.offline [] [] in
  (@loadToken Fixture.lib w).1 = Done (Ok Fixture.edge) /\
  ExpiresAt Fixture.edge = w_clock w (w_reads w) + 5 * Minute /\
  (@getValidToken Fixture.lib w).1 = Done (Ok "at-edge") /\
  w_http (@getValidToken Fixture.lib w).2 = [].
Proof. repeat split; reflexivity. Qed.

(** A stale token whose refresh is answered 401: the error carries the
    body and the token file still holds the stale token. *)
Lemma refresh_failure_keeps_token_witness :
  let w := Fixture.world (Some Fixture.stale_text) Fixture.rejecting [] [] in
  exists w',
    @getValidToken Fixture.lib w
    = (Done (Err ("token refresh failed - run 'oura auth' again: "
                  +:+ ("token refresh failed: " +:+ Fixture.invalid_grant))), w') /\
    w_files w' = w_files w /\
    List.filter is_write (w_calls w') = List.filter is_write (w_calls w).
Proof.
  apply (@refresh_failure_keeps_token Fixture.lib
           (Fixture.world (Some Fixture.stale_text) Fixture.rejecting [] [])
           Fixture.stale
           {| StatusCode := 401; Body := Fixture.invalid_grant |}).
  - reflexivity.
  - vm_compute. reflexivity.
  - reflexivity.
  - discriminate.
Defined.

(** ** Heart rate *)

Lemma wrap64_add_l (a b : Z) : wrap64 (wrap64 a + b) = wrap64 (a + b).
Proof.
  unfold wrap64. f_equal.
  replace ((a + 2 ^ 63) mod 2 ^ 64 - 2 ^ 63 + b + 2 ^ 63)
    with ((a + 2 ^ 63) mod 2 ^ 64 + b) by ring.
  rewrite Zplus_mod_idemp_l. f_equal. ring.
Qed.

Lemma wrap64_small (z : Z) : in_int64 z -> wrap64 z = z.
Proof.
  unfold in_int64, wrap64. intros Hz.
  rewrite Z.mod_small; lia.
Qed.

Lemma hr_loop_from (data : list HeartRateRecord) (mn mx sm : Z) :
  let r := fold_left
    (fun '(min, max, sum) hr =>
       (if BPM hr <? min then BPM hr else min,
        if max <? BPM hr then BPM hr else max,
        wrap64 (sum + BPM hr)))
    data (mn, mx, sm) in
  r.1.1 = foldr Z.min mn (map BPM data) /\
  r.2 = match data with
        | [] => sm
        | _ :: _ => wrap64 (sm + total (map BPM data))
        end.
Proof.
  revert mn mx sm. induction data as [|hr data IH]; intros mn mx sm; [done|].
  cbn [fold_left map foldr]. cbn zeta in *.
  destruct (IH (if BPM hr <? mn then BPM hr else mn)
               (if mx <? BPM hr then BPM hr else mx)
               (wrap64 (sm + BPM hr))) as [Hmin Hsum].
  split.
  - rewrite Hmin. clear. induction (map BPM data) as [|b l IHl]; cbn [foldr].
    + destruct (Z.ltb_spec (BPM hr) mn); lia.
    + lia.
  - rewrite Hsum. unfold total. cbn [foldr]. destruct data as [|hr' data'].
    + cbn. f_equal. lia.
    + rewrite wrap64_add_l. f_equal. cbn. lia.
Qed.

Lemma least_cons (d first : Z) (rest : list Z) :
  foldr Z.min d (first :: rest) = Z.min d (least first rest).
Proof.
  unfold least. induction rest as [|b l IH]; cbn [foldr] in *; lia.
Qed.

Lemma least_above (bound first : Z) (rest : list Z) :
  Forall (fun b => bound < b) (first :: rest) -> bound < least first rest.
Proof.
  unfold least. intros Hall. inversion Hall as [|? ? Hf Hr]; subst. clear Hall.
  induction Hr; cbn [foldr]; lia.
Qed.

Section HeartRate.
Context `{Extern}.

(** C10.  For a non-empty list of readings the heartrate command prints,
    as the average, the truncated quotient of the sum of the BPM values
    (a Go [int], so taken in 64 bits) by the number of readings, and, as
    the minimum, the smaller of 999 and the least BPM value: 999 itself
    when every reading exceeds 999. *)
Theorem heartrate_average_and_minimum (date body : string) (w w1 : World)
    (first : HeartRateRecord) (rest : list HeartRateRecord) :
  apiGet "/heartrate" (day_only date) w = (Done (Ok body), w1) ->
  data_heartrate body = first :: rest ->
  let data := first :: rest in
  let count := Z.of_nat (length data) in
  let sum := wrap64 (total (map BPM data)) in
  let min := Z.min 999 (least (BPM first) (map BPM rest)) in
  fetchHeartRate date w =
    (Done tt,
     printed ["❤️  Heart Rate - " +:+ date +:+ nl;
              rule +:+ nl;
              "Readings:  " +:+ fmt_d count +:+ nl;
              "Min:       " +:+ fmt_d min +:+ " bpm" +:+ nl;
              "Max:       " +:+ fmt_d (hr_max data) +:+ " bpm" +:+ nl;
              "Average:   " +:+ fmt_d (Z.quot sum count) +:+ " bpm" +:+ nl] w1) /\
  (in_int64 (total (map BPM data)) -> sum = total (map BPM data)) /\
  (Forall (fun b => 999 < b) (map BPM data) -> min = 999).
Proof.
  intros Hget Hdata data count sum min. split; [|split].
  - unfold fetchHeartRate, bind. rewrite Hget, Hdata.
    unfold hr_avg, hr_min, hr_sum, hr_loop.
    destruct (hr_loop_from (first :: rest) 999 0 0) as [Hmin Hsum].
    cbn zeta in Hmin, Hsum. rewrite Hmin, Hsum.
    change (map BPM (first :: rest)) with (BPM first :: map BPM rest) at 1.
    rewrite least_cons. reflexivity.
  - apply wrap64_small.
  - intros Hall.
    pose proof (least_above 999 (BPM first) (map BPM rest) Hall). subst min. lia.
Qed.

End HeartRate.

(** Readings 61, 58 and 72: minimum 58, average 63. *)
Lemma heartrate_average_and_minimum_witness :
  let w := Fixture.world (Some Fixture.fresh_text)
             (Fixture.answering Fixture.three_readings) [] [] in
  let w1 := (@apiGet Fixture.lib "/heartrate" (day_only "2026-01-10") w).2 in
  @fetchHeartRate Fixture.lib "2026-01-10" w =
    (Done tt,
     printed ["❤️  Heart Rate - 2026-01-10" +:+ nl;
              rule +:+ nl;
              "Readings:  3" +:+ nl;
              "Min:       58 bpm" +:+ nl;
              "Max:       72 bpm" +:+ nl;
              "Average:   63 bpm" +:+ nl] w1) /\
  (in_int64 191 -> wrap64 191 = 191) /\
  (Forall (fun b => 999 < b) [61; 58; 72] -> 58 = 999).
Proof.
  exact (@heartrate_average_and_minimum Fixture.lib "2026-01-10"
           Fixture.three_readings
           (Fixture.world (Some Fixture.fresh_text)
              (Fixture.answering Fixture.three_readings) [] [])
           _ (Fixture.reading 61) [Fixture.reading 58; Fixture.reading 72]
           eq_refl eq_refl).
Defined.

(** Readings 1200 and 1500: the minimum printed is the sentinel 999. *)
Example heartrate_sentinel :
  let w := Fixture.world (Some Fixture.fresh_text)
             (Fixture.answering Fixture.high_readings) [] [] in
  w_stdout (@fetchHeartRate Fixture.lib "2026-01-10" w).2 =
    "❤️  Heart Rate - 2026-01-10" +:+ nl +:+ rule +:+ nl
    +:+ "Readings:  2" +:+ nl +:+ "Min:       999 bpm" +:+ nl
    +:+ "Max:       1500 bpm" +:+ nl +:+ "Average:   1350 bpm" +:+ nl.
Proof. vm_compute. reflexivity. Qed.

(** ** Calls that return and stay quiet *)

Lemma silent_ret {A} (a : A) : silent (ret a).
Proof. intros w. exists a, w. done. Qed.

Lemma silent_bind {A B} (m : M A) (k : A -> M B) :
  silent m -> (forall a, silent (k a)) -> silent (bind m k).
Proof.
  intros Hm Hk w. destruct (Hm w) as (a & w1 & Em & Ho & He).
  destruct (Hk a w1) as (b & w2 & Ek & Ho' & He').
  exists b, w2. unfold bind. rewrite Em, Ek. split; [done|]. split; congruence.
Qed.

Lemma silent_time_Now : silent time_Now.
Proof. intros w. do 2 eexists. split; [reflexivity|done]. Qed.

Lemma silent_get_config : silent get_config.
Proof. intros w. do 2 eexists. split; [reflexivity|done]. Qed.

Lemma silent_os_UserHomeDir : silent os_UserHomeDir.
Proof. intros w. do 2 eexists. split; [reflexivity|done]. Qed.

Lemma silent_http_Do (q : HttpRequest) : silent (http_Do q).
Proof. intros w. do 2 eexists. split; [reflexivity|done]. Qed.

Lemma silent_os_MkdirAll (dir : string) (perm : Z) : silent (os_MkdirAll dir perm).
Proof. intros w. do 2 eexists. split; [reflexivity|done]. Qed.

Lemma silent_os_ReadFile (path : string) : silent (os_ReadFile path).
Proof.
  intros w. unfold os_ReadFile.
  destruct (w_files w !! path); do 2 eexists; (split; [reflexivity|done]).
Qed.

Lemma silent_os_WriteFile (path data : string) (perm : Z) :
  silent (os_WriteFile path data perm).
Proof.
  intros w. unfold os_WriteFile.
  destruct (w_writable w path); [|destruct (w_fault w path)];
    do 2 eexists; (split; [reflexivity|done]).
Qed.

Create HintDb silent.
#[local] Hint Resolve silent_ret silent_time_Now silent_get_config
  silent_os_UserHomeDir silent_http_Do silent_os_MkdirAll silent_os_ReadFile
  silent_os_WriteFile : silent.

(** Walks through a function body: binds, then the branches of each
    [match] and [if]. *)
Ltac walk :=
  repeat first
    [ progress auto with silent
    | apply silent_bind
    | progress cbv beta
    | match goal with
      | |- forall _, silent _ => intro
      | |- silent (match ?x with _ => _ end) => destruct x
      | |- silent (if ?b then _ else _) => destruct b
      end ].

Section Quiet.
Context `{Extern}.

Lemma silent_getConfigDir : silent getConfigDir.
Proof. unfold getConfigDir. walk. Qed.

Lemma silent_getTokenPath : silent getTokenPath.
Proof. unfold getTokenPath. pose proof silent_getConfigDir. walk. Qed.

Lemma silent_loadToken : silent loadToken.
Proof. unfold loadToken. pose proof silent_getTokenPath. walk. Qed.

Lemma silent_saveToken (token : StoredToken) : silent (saveToken token).
Proof. unfold saveToken. pose proof silent_getTokenPath. walk. Qed.

Lemma silent_refreshToken (refresh : string) : silent (refreshToken refresh).
Proof. unfold refreshToken. pose proof silent_saveToken. walk. Qed.

Lemma silent_getValidToken : silent getValidToken.
Proof.
  unfold getValidToken.
  pose proof silent_loadToken. pose proof silent_refreshToken. walk.
Qed.

Lemma silent_apiGet (ep : string) (params : Values) : silent (apiGet ep params).
Proof. unfold apiGet. pose proof silent_getValidToken. walk. Qed.

Lemma silent_fetchJSON_loop (eps : list string) (params : Values)
    (result : gmap string string) :
  silent (fetchJSON_loop eps params result).
Proof.
  revert result. induction eps as [|ep eps IH]; intros result; cbn [fetchJSON_loop].
  - apply silent_ret.
  - pose proof (silent_apiGet ep params). walk.
Qed.

End Quiet.

(** ** Empty results *)

Section Empty.
Context `{Extern}.

Lemma apiGet_empty (ep : string) (params : Values) (w : World) :
  authenticated w -> answers_empty w ->
  exists body w',
    apiGet ep params w = (Done (Ok body), w') /\ no_records body /\
    authenticated w' /\ answers_empty w' /\
    w_stdout w' = w_stdout w /\ w_stderr w' = w_stderr w.
Proof.
  intros Hauth Hnet. pose proof Hauth as (f & token & Hfile & Hjson & Hfresh).
  assert ((loadToken w).1 = Done (Ok token)) as Hload.
  { rewrite loadToken_eq. cbn. rewrite Hfile. now rewrite Hjson. }
  pose proof (getValidToken_loaded _ _ Hload) as Hvalid.
  unfold Time_After, Time_Add in Hvalid.
  pose proof (Hfresh (w_reads w)) as Hnow. apply Z.ltb_ge in Hnow.
  rewrite Hnow in Hvalid.
  unfold apiGet, bind. rewrite Hvalid. unfold http_Do.
  match goal with |- context [w_net ?w0 ?n ?q] =>
    destruct (Hnet n (api_url ep params) ("Bearer " +:+ AccessToken token))
      as (body & Hreply & Hnone);
    change (w_net w0 n q) with (w_net w n q)
  end.
  cbn [w_net tick visited log_call] in *. rewrite Hreply. cbn.
  exists body. eexists. split; [reflexivity|]. split; [exact Hnone|].
  split; [exact Hauth|]. split; [exact Hnet|]. done.
Qed.

(** C7.  With a usable token on file and the API answering 200 with an
    empty [data] array, every category command prints the line
    [No <category> data for <date>], writes nothing to the error stream and
    returns, so the process exits with status 0. *)
Theorem empty_result_is_not_an_error (c : Category) (date : string) (w : World) :
  authenticated w -> answers_empty w ->
  exit_status (fetch c date w).1 = 0 /\
  w_stdout (fetch c date w).2
  = w_stdout w +:+ ("No " +:+ label c +:+ " data for " +:+ date +:+ nl) /\
  w_stderr (fetch c date w).2 = w_stderr w.
Proof.
  intros Hauth Hnet.
  destruct c; cbn [fetch label];
    unfold fetchSleep, fetchActivity, fetchReadiness, fetchHeartRate, fetchStress,
      fetchSpO2, fetchResilience, fetchVO2Max, fetchWorkouts, bind.
  all: match goal with |- context [apiGet ?ep ?ps ?w0] =>
         destruct (apiGet_empty ep ps w0 Hauth Hnet)
           as (body & w1 & -> & Hnone & Hauth1 & Hnet1 & Hout & Herr)
       end.
  all: try match goal with |- context [apiGet ?ep ?ps ?w0] =>
         destruct (apiGet_empty ep ps w0 Hauth1 Hnet1)
           as (body2 & w2 & -> & Hnone2 & _ & _ & Hout2 & Herr2);
         destruct Hnone2 as (_ & -> & _)
       end.
  all: destruct Hnone as (H0 & _ & H2 & H3 & H4 & H5 & H6 & H7 & H8 & H9);
       rewrite ?H0, ?H2, ?H3, ?H4, ?H5, ?H6, ?H7, ?H8, ?H9.
  all: cbn; rewrite ?Hout2, ?Herr2, ?Hout, ?Herr; done.
Qed.

End Empty.

(** ** The state value *)

Lemma fmt_d_inj (a b : Z) : fmt_d a = fmt_d b -> a = b.
Proof.
  unfold fmt_d. intros E. apply DecimalZ.to_int_inj.
  assert (forall z, NilZero.int_of_string (NilZero.string_of_int (Z.to_int z))
                    = Some (Z.to_int z)) as Hparse.
  { intros z. apply NilZero.isi; destruct z; cbn; try discriminate;
      intros [= Hn]; exact (DecimalPos.Unsigned.to_uint_nonnil _ Hn). }
  pose proof (f_equal NilZero.int_of_string E) as E'.
  rewrite !Hparse in E'. congruence.
Qed.

(** C6, as the code has it.  The state value is the decimal rendering of
    the clock reading in nanoseconds: two invocations get the same state
    exactly when they read the same nanosecond. *)
Theorem state_is_the_clock_reading (w1 w2 : World) :
  (newState w1).1 = Done (fmt_d (Time_UnixNano (w_clock w1 (w_reads w1)))) /\
  ((newState w1).1 = (newState w2).1 <->
   w_clock w1 (w_reads w1) = w_clock w2 (w_reads w2)).
Proof.
  split; [reflexivity|]. unfold newState, bind, time_Now, ret, Time_UnixNano.
  cbn. split.
  - intros [= E]. now apply fmt_d_inj.
  - now intros ->.
Qed.

(** C6 as stated fails: the state is a function of the wall-clock time
    alone, so whoever knows the time of the invocation knows the state.  At
    2026-01-10T12:00:00Z it is 1768046400000000000, whatever else the world
    holds. *)
Lemma state_is_predictable :
  exists guess : Time -> string,
    (forall w : World, (newState w).1 = Done (guess (w_clock w (w_reads w)))) /\
    guess Fixture.noon = "1768046400000000000".
Proof. exists fmt_d. split; [intros w|]; reflexivity. Qed.

(** ** The callback session *)

Section Session.
Import Auth.

(** What one enabled event does to the controller and to the listener. *)
Lemma step_controller (ev : Event) (s s' : Session) :
  step ev s = Some s' ->
  match ev with
  | TakeCode | TakeErr | TimerFires =>
      controller s = InSelect /\ exists b, controller s' = Woken b
  | Close => exists b, controller s = Woken b /\ controller s' = Stopped b
  | _ => controller s' = controller s
  end.
Proof.
  destruct ev; cbn; unfold perform; intros Hstep;
    repeat case_match; simplify_eq; cbn; eauto.
Qed.

Lemma step_listening (ev : Event) (s s' : Session) :
  step ev s = Some s' ->
  listening s' = match ev with
                 | ServeFails _ | Close => false
                 | _ => listening s
                 end.
Proof.
  destruct ev; cbn; unfold perform; intros Hstep;
    repeat case_match; simplify_eq; cbn; eauto.
Qed.

Lemma step_closed_when_stopped (ev : Event) (s s' : Session) :
  step ev s = Some s' -> closed_when_stopped s -> closed_when_stopped s'.
Proof.
  intros Hstep Hinv b Hb.
  pose proof (step_controller _ _ _ Hstep) as Hc.
  pose proof (step_listening _ _ _ Hstep) as Hl.
  destruct ev; try done; rewrite Hl;
    solve [ apply (Hinv b); congruence
          | destruct Hc as (_ & b' & Hc); congruence ].
Qed.

Lemma run_closed_when_stopped (evs : list Event) (s : Session) :
  closed_when_stopped s -> closed_when_stopped (run evs s).
Proof.
  revert s. induction evs as [|ev evs IH]; intros s Hinv; [exact Hinv|].
  cbn. apply IH. unfold exec. destruct (step ev s) as [s'|] eqn:Hstep; [|exact Hinv].
  eapply step_closed_when_stopped; eauto.
Qed.

(** The select takes a case at most once. *)
Lemma taken_bound (evs : list Event) (s : Session) :
  (taken evs s <= match controller s with InSelect => 1 | _ => 0 end)%nat.
Proof.
  revert s. induction evs as [|ev evs IH]; intros s; cbn [taken]; [lia|].
  destruct (step ev s) as [s'|] eqn:Hstep; [|apply IH].
  pose proof (step_controller _ _ _ Hstep) as Hc. pose proof (IH s') as Hs'.
  destruct ev; cbn [is_take];
    try (rewrite Hc in Hs'; exact Hs');
    try (destruct Hc as (-> & b & Hb); rewrite Hb in Hs'; lia).
  destruct Hc as (b & -> & Hb). rewrite Hb in Hs'. lia.
Qed.

(** C3, as the code has it.  Along every schedule the controller's select
    takes a case at most once, so at most one callback signals it; and
    once the controller has called [server.Close()] the listener accepts no
    further request.  (Between a handler's send and that call, requests are
    still accepted and handled.) *)
Theorem one_signal_then_closed (state : string) (evs : list Event) :
  (taken evs (start state) <= 1)%nat /\
  (forall b, controller (run evs (start state)) = Stopped b ->
     listening (run evs (start state)) = false /\
     forall r, step (Arrive r) (run evs (start state)) = None).
Proof.
  split; [apply (taken_bound evs (start state))|].
  intros b Hb.
  assert (listening (run evs (start state)) = false) as Hl.
  { apply (run_closed_when_stopped evs (start state)) with b; [|exact Hb].
    intros b'. discriminate. }
  split; [exact Hl|]. intros r. cbn. now rewrite Hl.
Qed.

(** *** Where codes come from, and what a handler does *)

Lemma callback_sends_checked (state : string) (r : Request) (c : string) :
  SendCode c ∈ callback state r ->
  c <> EmptyString /\ query_state r = state /\ query_code r = c.
Proof.
  unfold callback.
  destruct (String.eqb_spec (query_state r) state) as [Hs|Hs]; cbn.
  - destruct (String.eqb_spec (query_code r) EmptyString) as [Hc|Hc]; cbn.
    + intros Hin. repeat (apply elem_of_cons in Hin as [Hin|Hin]; [discriminate|]).
      inversion Hin.
    + intros Hin. apply elem_of_cons in Hin as [Hin|Hin]; [discriminate|].
      apply elem_of_cons in Hin as [Hin|Hin]; [|inversion Hin].
      injection Hin as ->. done.
  - intros Hin. repeat (apply elem_of_cons in Hin as [Hin|Hin]; [discriminate|]).
    inversion Hin.
Qed.

Lemma step_codes_checked (state : string) (all : list Event) (ev : Event)
    (s s' : Session) :
  ev ∈ all -> step ev s = Some s' ->
  codes_checked state all s -> codes_checked state all s'.
Proof.
  intros Hev Hstep (Hst & Hchan & Hgo & Hctl).
  destruct ev as [r|i|e|d| | | |]; cbn in Hstep.
  - (* Arrive *)
    destruct (listening s && alive s); [|discriminate]. injection Hstep as <-.
    split; [exact Hst|]. split; [exact Hchan|]. split; [|exact Hctl].
    cbn. intros i ops c Hi Hin.
    apply lookup_app_Some in Hi as [Hi|[_ Hi]]; [eauto|].
    apply list_lookup_singleton_Some in Hi as [_ <-].
    rewrite Hst in Hin.
    destruct (callback_sends_checked _ _ _ Hin) as (Hne & Hs & Hc).
    split; [exact Hne|]. exists r. done.
  - (* Step *)
    destruct (alive s); [|discriminate].
    destruct (goroutines s !! i) as [[|op rest]|] eqn:Hi; try discriminate.
    assert (forall j ops c, <[i:=rest]> (goroutines s) !! j = Some ops ->
              SendCode c ∈ ops -> checked_code state all c) as Hgo'.
    { intros j ops c Hj Hin.
      apply list_lookup_insert_Some in Hj as [(_ & <- & _)|[_ Hj]]; [|eauto].
      apply (Hgo i (op :: rest) c Hi). now apply elem_of_cons; right. }
    destruct op as [e|c0|rp]; cbn in Hstep.
    + case_match; [|discriminate]. injection Hstep as <-. done.
    + case_match; [|discriminate]. injection Hstep as <-.
      split; [exact Hst|]. split; [|split; [exact Hgo'|exact Hctl]].
      cbn. intros c Hin. apply elem_of_app in Hin as [Hin|Hin]; [eauto|].
      apply list_elem_of_singleton in Hin as ->.
      apply (Hgo i (SendCode c0 :: rest) c0 Hi). now apply elem_of_cons; left.
    + injection Hstep as <-. done.
  - (* ServeFails *)
    destruct (listening s && alive s); [|discriminate]. injection Hstep as <-.
    split; [exact Hst|]. split; [exact Hchan|]. split; [|exact Hctl].
    cbn. intros i ops c Hi Hin.
    apply lookup_app_Some in Hi as [Hi|[_ Hi]]; [eauto|].
    apply list_lookup_singleton_Some in Hi as [_ <-].
    apply elem_of_cons in Hin as [Hin|Hin]; [discriminate|inversion Hin].
  - (* Wait *)
    destruct (0 <=? d); [|discriminate]. injection Hstep as <-. done.
  - (* TakeCode *)
    destruct (controller s) eqn:Hc; try discriminate.
    destruct (codeChan s) as [|c q] eqn:Hq; [discriminate|].
    injection Hstep as <-.
    split; [exact Hst|]. split; [|split; [exact Hgo|]].
    + cbn. intros c' Hin. apply Hchan. now apply elem_of_cons; right.
    + cbn. intros c' [[= <-]|[=]]. apply Hchan. now apply elem_of_cons; left.
  - (* TakeErr *)
    destruct (controller s) eqn:Hc; try discriminate.
    destruct (errChan s) as [|e q]; [discriminate|].
    injection Hstep as <-.
    split; [exact Hst|]. split; [exact Hchan|]. split; [exact Hgo|].
    cbn. intros c' [[=]|[=]].
  - (* TimerFires *)
    destruct (controller s) eqn:Hc; try discriminate.
    destruct (2 * Minute <=? elapsed s); [|discriminate].
    injection Hstep as <-.
    split; [exact Hst|]. split; [exact Hchan|]. split; [exact Hgo|].
    cbn. intros c' [[=]|[=]].
  - (* Close *)
    destruct (controller s) as [|b|b] eqn:Hc; try discriminate.
    injection Hstep as <-.
    split; [exact Hst|]. split; [exact Hchan|]. split; [exact Hgo|].
    cbn. intros c' [[=]|[= ->]]. apply Hctl. now left.
Qed.

Lemma run_codes_checked (state : string) (all evs : list Event) (s : Session) :
  evs ⊆ all -> codes_checked state all s ->
  codes_checked state all (run evs s).
Proof.
  revert s. induction evs as [|ev evs IH]; intros s Hsub Hinv; [exact Hinv|].
  change (run (ev :: evs) s) with (run evs (exec ev s)).
  apply IH; [set_solver|].
  unfold exec. destruct (step ev s) as [s'|] eqn:Hstep; [|exact Hinv].
  eapply step_codes_checked; eauto. set_solver.
Qed.


Lemma run_app (evs evs' : list Event) (s : Session) :
  run (evs ++ evs') s = run evs' (run evs s).
Proof. apply fold_left_app. Qed.

Lemma step_state_token (ev : Event) (s s' : Session) :
  step ev s = Some s' -> state_token s' = state_token s.
Proof.
  destruct ev; cbn; unfold perform; intros Hstep;
    repeat case_match; simplify_eq; cbn; eauto.
Qed.

Lemma run_state_token (evs : list Event) (s : Session) :
  state_token (run evs s) = state_token s.
Proof.
  revert s. induction evs as [|ev evs IH]; intros s; [reflexivity|].
  change (run (ev :: evs) s) with (run evs (exec ev s)). rewrite IH.
  unfold exec. destruct (step ev s) as [s'|] eqn:Hstep; [|reflexivity].
  eapply step_state_token; eauto.
Qed.

(** Once the select has taken a case, the case stays. *)
Lemma step_took (ev : Event) (s s' : Session) (b : Branch) :
  step ev s = Some s' -> took b s -> took b s'.
Proof.
  intros Hstep Hb. pose proof (step_controller _ _ _ Hstep) as Hc.
  unfold took in *.
  destruct ev; try (rewrite Hc; exact Hb);
    try (destruct Hc as [Hc _]; destruct Hb; congruence).
  destruct Hc as (b' & Hw & ->). destruct Hb; [right|]; congruence.
Qed.

Lemma run_took (evs : list Event) (s : Session) (b : Branch) :
  took b s -> took b (run evs s).
Proof.
  revert s. induction evs as [|ev evs IH]; intros s Hs; [exact Hs|].
  change (run (ev :: evs) s) with (run evs (exec ev s)). apply IH.
  unfold exec. destruct (step ev s) as [s'|] eqn:Hstep; [|exact Hs].
  eapply step_took; eauto.
Qed.

Lemma settle_took (s : Session) (b : Branch) : took b s -> settle s = b.
Proof. unfold settle. now intros [->| ->]. Qed.



Lemma callback_genuine (state : string) (r : Request) :
  query_state r = state -> query_code r <> EmptyString ->
  callback state r = [Respond (ReplyPage page); SendCode (query_code r)].
Proof.
  intros Hs Hc. unfold callback. rewrite Hs, String.eqb_refl. cbn.
  apply String.eqb_neq in Hc. now rewrite Hc.
Qed.

(** The handler of a request with the session's state and a code, started
    while the select waits and the code channel is empty, and run to its
    end. *)
Lemma genuine_handled (state : string) (r : Request) (s : Session) :
  state_token s = state ->
  query_state r = state -> query_code r <> EmptyString ->
  controller s = InSelect -> listening s = true -> codeChan s = [] ->
  let i := length (goroutines s) in
  let s2 := run [Arrive r; Step i; Step i] s in
  codeChan s2 = [query_code r] /\ controller s2 = InSelect /\
  written s2 = written s ++ [ReplyPage page] /\
  errChan s2 = errChan s /\
  goroutines s2 = goroutines s ++ [[]].
Proof.
  intros Hst Hs Hcode Hc Hl He i s2. subst s2 i.
  pose proof (callback_genuine state r Hs Hcode) as Hcb.
  destruct s as [st cc ec li gs wr ct el]. cbn in Hst, Hc, Hl, He. subst st cc li ct.
  cbn [goroutines written errChan]. unfold run. cbn [fold_left].
  assert (exec (Arrive r)
            {| state_token := state; codeChan := []; errChan := ec;
               listening := true; goroutines := gs; written := wr;
               controller := InSelect; elapsed := el |}
          = {| state_token := state; codeChan := []; errChan := ec;
               listening := true;
               goroutines := gs ++ [[Respond (ReplyPage page);
                                     SendCode (query_code r)]];
               written := wr; controller := InSelect; elapsed := el |}) as ->.
  { unfold exec. cbn -[callback]. rewrite Hcb. reflexivity. }
  assert (exec (Step (length gs))
            {| state_token := state; codeChan := []; errChan := ec;
               listening := true;
               goroutines := gs ++ [[Respond (ReplyPage page);
                                     SendCode (query_code r)]];
               written := wr; controller := InSelect; elapsed := el |}
          = {| state_token := state; codeChan := []; errChan := ec;
               listening := true;
               goroutines := gs ++ [[SendCode (query_code r)]];
               written := wr ++ [ReplyPage page];
               controller := InSelect; elapsed := el |}) as ->.
  { unfold exec, step, alive. cbn [controller goroutines].
    rewrite lookup_app_r by lia. rewrite Nat.sub_diag. cbn -[insert].
    unfold set_goroutine, set_codeChan, add_written. cbn -[insert].
    rewrite insert_app_r_alt by lia. rewrite Nat.sub_diag. reflexivity. }
  assert (exec (Step (length gs))
            {| state_token := state; codeChan := []; errChan := ec;
               listening := true;
               goroutines := gs ++ [[SendCode (query_code r)]];
               written := wr ++ [ReplyPage page];
               controller := InSelect; elapsed := el |}
          = {| state_token := state; codeChan := [query_code r]; errChan := ec;
               listening := true;
               goroutines := gs ++ [[]];
               written := wr ++ [ReplyPage page];
               controller := InSelect; elapsed := el |}) as ->.
  { unfold exec, step, alive. cbn [controller goroutines].
    rewrite lookup_app_r by lia. rewrite Nat.sub_diag. cbn -[insert].
    unfold set_goroutine, set_codeChan, add_written. cbn -[insert].
    rewrite insert_app_r_alt by lia. rewrite Nat.sub_diag. reflexivity. }
  cbn. done.
Qed.


Lemma take_code (s : Session) (c : string) (q : list string) :
  controller s = InSelect -> codeChan s = c :: q ->
  took (GotCode c) (exec TakeCode s).
Proof.
  intros Hc He. unfold exec. cbn. rewrite Hc, He. now left.
Qed.

End Session.

(** One callback, taken and followed by [server.Close()]: one signal, and
    the next request is refused. *)
Lemma one_signal_then_closed_witness :
  let state := "1768046400000000000" in
  let r := {| Auth.query_state := state; Auth.query_code := "code-1" |} in
  let evs := [Auth.Arrive r; Auth.Step 0; Auth.Step 0; Auth.TakeCode;
              Auth.Close; Auth.Arrive r] in
  Auth.taken evs (Auth.start state) = 1%nat /\
  Auth.step (Auth.Arrive r) (Auth.run evs (Auth.start state)) = None.
Proof.
  intros state r evs.
  destruct (one_signal_then_closed state evs) as [_ Hclosed].
  destruct (Hclosed (Auth.GotCode "code-1") eq_refl) as [_ Hrefused].
  split; [reflexivity|apply Hrefused].
Defined.

(** C3 as stated fails.  A first callback with the right state delivers
    its code; before the controller has closed the server (here even after
    it has received the code) a second request is accepted and handled in
    full: its page is written and its code is sent. *)
Lemma second_callback_is_processed :
  let state := "1768046400000000000" in
  let first := {| Auth.query_state := state; Auth.query_code := "code-1" |} in
  let second := {| Auth.query_state := state; Auth.query_code := "code-2" |} in
  let delivery := [Auth.Arrive first; Auth.Step 0; Auth.Step 0; Auth.TakeCode] in
  let later := [Auth.Arrive second; Auth.Step 1; Auth.Step 1; Auth.Close] in
  Auth.feasible (delivery ++ later) (Auth.start state) = true /\
  Auth.controller (Auth.run delivery (Auth.start state))
    = Auth.Woken (Auth.GotCode "code-1") /\
  Auth.written (Auth.run delivery (Auth.start state))
    = [Auth.ReplyPage Auth.page] /\
  Auth.written (Auth.run (delivery ++ later) (Auth.start state))
    = [Auth.ReplyPage Auth.page; Auth.ReplyPage Auth.page] /\
  Auth.codeChan (Auth.run (delivery ++ later) (Auth.start state)) = ["code-2"] /\
  Auth.goroutines (Auth.run (delivery ++ later) (Auth.start state)) = [[]; []].
Proof. repeat split; vm_compute; reflexivity. Qed.

(** ** The [auth] command as a whole *)

Section AuthCommand.
Context `{Extern}.
Import Auth.



Lemma step_idle (ev : Event) (s s' : Session) :
  is_arrival ev = false -> is_serve_failure ev = false ->
  step ev s = Some s' -> idle s -> idle s'.
Proof.
  unfold idle. intros Ha Hf Hstep (Hc & He & Hg & Hb).
  destruct (controller s) as [|b|b] eqn:Hcs;
    destruct ev; try discriminate; cbn in Hstep; unfold perform in Hstep;
    rewrite ?Hc, ?He, ?Hg, ?Hcs in Hstep; cbn in Hstep;
    repeat match type of Hstep with
           | context [if ?c then _ else _] => destruct c
           end;
    simplify_eq; cbn; rewrite ?Hcs; done.
Qed.

Lemma run_idle (evs : list Event) (s : Session) :
  uneventful evs -> idle s -> idle (run evs s).
Proof.
  intros Hevs. revert s. induction Hevs as [|ev evs [Ha Hf] _ IH]; intros s Hs;
    [exact Hs|].
  cbn. apply IH. unfold exec. destruct (step ev s) as [s'|] eqn:Hstep; [|exact Hs].
  eapply step_idle; eauto.
Qed.

Lemma settle_idle (s : Session) : idle s -> settle s = TimerFired.
Proof.
  unfold idle, settle. intros (-> & -> & _ & Hb). destruct (controller s); done.
Qed.

(** [exchangeCode] only adds to the calls made so far. *)
Lemma exchangeCode_keeps_calls (code : string) (w : World) (o : OsCall) :
  o ∈ w_calls w -> o ∈ w_calls (exchangeCode code w).2.
Proof.
  intros Hin.
  unfold exchangeCode, bind, get_config, http_Do, time_Now, saveToken,
    getTokenPath, getConfigDir, bind, os_UserHomeDir, os_MkdirAll, os_WriteFile,
    Eprint, os_Exit, Println, Print, ret.
  cbn. repeat case_match; simplify_eq; cbn; set_solver.
Qed.

(** [doAuth] up to its select: it prints, starts the browser and waits;
    what follows is decided by the case the select ends in. *)
Lemma doAuth_select (w : World) :
  exists w0,
    doAuth w =
    match settle (run (w_schedule w)
                    (start (fmt_d (Time_UnixNano (w_clock w (w_reads w)))))) with
    | GotCode code => exchangeCode code (log_call (OpServerClose ":8081") w0)
    | GotErr err =>
        (Exited 1,
         put_stderr ("Auth error: " +:+ err +:+ nl)
           (log_call (OpServerClose ":8081") w0))
    | TimerFired =>
        (Exited 1,
         put_stderr ("Auth timeout" +:+ nl)
           (log_call (OpServerClose ":8081") w0))
    end /\
    w_stderr w0 = w_stderr w /\ w_http w0 = w_http w.
Proof.
  unfold doAuth, newState, bind, time_Now, get_config, Println, Print, ret,
    openBrowser, runtime_GOOS, cmd_Start, await, server_Close, Eprint, os_Exit.
  cbn -[exchangeCode run settle log_call put_stderr].
  (destruct (String.eqb (w_goos w) "darwin");
   [|destruct (String.eqb (w_goos w) "linux");
     [|destruct (String.eqb (w_goos w) "windows")]]);
    cbn -[exchangeCode run settle log_call put_stderr];
    repeat match goal with
           | |- context [w_schedule (log_call ?o ?x)] =>
               change (w_schedule (log_call o x)) with (w_schedule x)
           | |- context [w_schedule (put_stdout ?o ?x)] =>
               change (w_schedule (put_stdout o x)) with (w_schedule x)
           | |- context [w_schedule (tick ?x)] =>
               change (w_schedule (tick x)) with (w_schedule x)
           end;
    destruct (settle _); eexists; (split; [reflexivity|]); done.
Qed.


(** C8, as the code has it.  Every exit path of the auth command calls
    [server.Close()], after which the server accepts nothing.  When no
    callback arrives and the listener itself does not fail, the channels
    stay empty, the timer case is the only one the select can take, and it
    can be taken exactly once two minutes have passed; the command then
    closes the server, prints [Auth timeout] to the error stream and exits
    with status 1. *)
Theorem timeout_ends_the_session (w : World) :
  let state := fmt_d (Time_UnixNano (w_clock w (w_reads w))) in
  let s := run (w_schedule w) (start state) in
  OpServerClose ":8081" ∈ w_calls (doAuth w).2 /\
  closed_when_stopped s /\
  (uneventful (w_schedule w) ->
   codeChan s = [] /\ errChan s = [] /\
   (controller s = InSelect ->
    (is_Some (step TimerFires s) <-> 2 * Minute <= elapsed s)) /\
   settle s = TimerFired /\
   (doAuth w).1 = Exited 1 /\
   w_stderr (doAuth w).2 = w_stderr w +:+ ("Auth timeout" +:+ nl) /\
   last (w_calls (doAuth w).2) = Some (OpServerClose ":8081") /\
   w_http (doAuth w).2 = w_http w).
Proof.
  intros state s.
  destruct (doAuth_select w) as (w0 & Hdo & Herr & Hhttp).
  fold state in Hdo. fold s in Hdo.
  split; [|split].
  - rewrite Hdo. destruct (settle s) as [code| |].
    + apply exchangeCode_keeps_calls. cbn. set_solver.
    + cbn. set_solver.
    + cbn. set_solver.
  - apply run_closed_when_stopped. intros b. discriminate.
  - intros Hquiet.
    assert (idle s) as Hidle.
    { apply run_idle; [exact Hquiet|]. unfold idle. cbn. done. }
    pose proof (settle_idle s Hidle) as Hsettle.
    destruct Hidle as (Hc & He & _ & _).
    split; [exact Hc|]. split; [exact He|]. split.
    { intros Hsel. cbn. rewrite Hsel.
      destruct (Z.leb_spec (2 * Minute) (elapsed s)); split; intros Hx;
        try done; try lia. }
    split; [exact Hsettle|].
    rewrite Hdo, Hsettle. cbn. rewrite Herr, Hhttp.
    rewrite last_snoc. done.
Qed.

End AuthCommand.


(** Nothing happens for two minutes: the timer fires and the command ends
    with [Auth timeout] and status 1, the server closed last. *)
Lemma timeout_ends_the_session_witness :
  let w := Fixture.world None Fixture.offline
             [Auth.Wait (2 * Minute); Auth.TimerFires; Auth.Close]
             ["oura"; "auth"] in
  (@doAuth Fixture.lib w).1 = Exited 1 /\
  w_stderr (@doAuth Fixture.lib w).2 = w_stderr w +:+ ("Auth timeout" +:+ nl) /\
  last (w_calls (@doAuth Fixture.lib w).2) = Some (OpServerClose ":8081").
Proof.
  intros w.
  destruct (@timeout_ends_the_session Fixture.lib w) as (_ & _ & Hquiet).
  destruct Hquiet as (_ & _ & _ & _ & Hexit & Herr & Hlast & _).
  - repeat constructor.
  - exact (conj Hexit (conj Herr Hlast)).
Defined.

(** The whole process on the same world. *)
Example auth_timeout_process :
  let w := Fixture.world None Fixture.offline
             [Auth.Wait (2 * Minute); Auth.TimerFires; Auth.Close]
             ["oura"; "auth"] in
  (@run_main Fixture.lib w).1 = 1 /\
  w_stderr (@run_main Fixture.lib w).2 = "Auth timeout" +:+ nl.
Proof. split; vm_compute; reflexivity. Qed.

(** A fresh token on file and an API that answers every request with
    [{"data":[]}]: the sleep command prints its no-data line. *)
Lemma empty_result_is_not_an_error_witness :
  let w := Fixture.world (Some Fixture.fresh_text)
             (Fixture.answering Fixture.no_data) [] [] in
  exit_status (@fetch Fixture.lib Sleep "2026-01-10" w).1 = 0 /\
  w_stdout (@fetch Fixture.lib Sleep "2026-01-10" w).2
  = w_stdout w +:+ ("No " +:+ label Sleep +:+ " data for " +:+ "2026-01-10" +:+ nl) /\
  w_stderr (@fetch Fixture.lib Sleep "2026-01-10" w).2 = w_stderr w.
Proof.
  intros w.
  apply (@empty_result_is_not_an_error Fixture.lib Sleep "2026-01-10" w).
  - exists (Fixture.file Fixture.fresh_text), Fixture.fresh.
    split; [reflexivity|]. split; [reflexivity|].
    intros n. vm_compute. discriminate.
  - intros n url authorization. exists Fixture.no_data.
    split; [reflexivity|]. repeat split.
Defined.

(** The whole process: [oura sleep 2026-01-10] prints
    [No sleep data for 2026-01-10] and exits with status 0. *)
Example sleep_no_data_process :
  let w := Fixture.world (Some Fixture.fresh_text)
             (Fixture.answering Fixture.no_data) []
             ["oura"; "sleep"; "2026-01-10"] in
  (@run_main Fixture.lib w).1 = 0 /\
  w_stdout (@run_main Fixture.lib w).2 = "No sleep data for 2026-01-10" +:+ nl /\
  w_stderr (@run_main Fixture.lib w).2 = EmptyString.
Proof. repeat split; vm_compute; reflexivity. Qed.


(** C8 as stated fails when the listener itself fails: no callback
    arrives, yet the session ends at once with [Auth error: ...], not in
    the timed-out state. *)
Lemma listener_failure_is_not_a_timeout :
  let busy := "listen tcp :8081: bind: address already in use" in
  let schedule := [Auth.ServeFails busy; Auth.Step 0; Auth.TakeErr; Auth.Close] in
  let w := Fixture.world None Fixture.offline schedule ["oura"; "auth"] in
  List.existsb Auth.is_arrival schedule = false /\
  Auth.feasible schedule (Auth.start "1768046400000000000") = true /\
  Auth.elapsed (Auth.run schedule (Auth.start "1768046400000000000")) = 0 /\
  Auth.controller (Auth.run schedule (Auth.start "1768046400000000000"))
    = Auth.Stopped (Auth.GotErr busy) /\
  (@run_main Fixture.lib w).1 = 1 /\
  w_stderr (@run_main Fixture.lib w).2 = "Auth error: " +:+ busy +:+ nl.
Proof. repeat split; vm_compute; reflexivity. Qed.

(** The all command with nothing to show: a banner, five no-data lines. *)
Example all_no_data_process :
  let w := Fixture.world (Some Fixture.fresh_text)
             (Fixture.answering Fixture.no_data) []
             ["oura"; "all"; "2026-01-10"] in
  (@run_main Fixture.lib w).1 = 0 /\
  w_stderr (@run_main Fixture.lib w).2 = EmptyString /\
  w_stdout (@run_main Fixture.lib w).2
  = @banner Fixture.lib "2026-01-10"
    +:+ "No readiness data for 2026-01-10" +:+ nl +:+ nl
    +:+ "No sleep data for 2026-01-10" +:+ nl +:+ nl
    +:+ "No activity data for 2026-01-10" +:+ nl +:+ nl
    +:+ "No stress data for 2026-01-10" +:+ nl +:+ nl
    +:+ "No heart rate data for 2026-01-10" +:+ nl.
Proof. repeat split; vm_compute; reflexivity. Qed.

(** ** Failed requests *)

Lemma sequence_cons (m : M unit) (rest : list (M unit)) (w : World) :
  sequence (m :: rest) w =
  match m w with
  | (Done _, w') => sequence rest w'
  | (Exited c, w') => (Exited c, w')
  end.
Proof.
  destruct rest as [|m' rest]; [|reflexivity].
  cbn. destruct (m w) as [[[]|c] w']; reflexivity.
Qed.

Lemma sequence_stops (pre post : list (M unit)) (m : M unit)
    (w w0 w1 : World) (c : Z) :
  sequence pre w = (Done tt, w0) -> m w0 = (Exited c, w1) ->
  sequence (pre ++ m :: post) w = (Exited c, w1).
Proof.
  revert w. induction pre as [|p pre IH]; intros w Hpre Hm.
  - cbn in Hpre. injection Hpre as ->.
    change ([] ++ m :: post) with (m :: post). rewrite sequence_cons.
    now rewrite Hm.
  - change ((p :: pre) ++ m :: post) with (p :: (pre ++ m :: post)).
    rewrite sequence_cons in *.
    destruct (p w) as [[[]|c'] w']; [|discriminate]. now apply IH.
Qed.

Section Failures.
Context `{Extern}.
Import Auth.

(** [doAuth] up to its select, with what it leaves unchanged. *)
Lemma doAuth_select_env (w : World) :
  exists w0,
    doAuth w =
    match settle (run (w_schedule w)
                    (start (fmt_d (Time_UnixNano (w_clock w (w_reads w)))))) with
    | GotCode code => exchangeCode code (log_call (OpServerClose ":8081") w0)
    | GotErr err =>
        (Exited 1,
         put_stderr ("Auth error: " +:+ err +:+ nl)
           (log_call (OpServerClose ":8081") w0))
    | TimerFired =>
        (Exited 1,
         put_stderr ("Auth timeout" +:+ nl)
           (log_call (OpServerClose ":8081") w0))
    end /\
    w_stderr w0 = w_stderr w /\ w_http w0 = w_http w /\
    w_files w0 = w_files w /\ w_config w0 = w_config w /\
    w_net w0 = w_net w /\ w_home w0 = w_home w /\
    w_writable w0 = w_writable w.
Proof.
  unfold doAuth, newState, bind, time_Now, get_config, Println, Print, ret,
    openBrowser, runtime_GOOS, cmd_Start, await, server_Close, Eprint, os_Exit.
  cbn -[exchangeCode run settle log_call put_stderr].
  (destruct (String.eqb (w_goos w) "darwin");
   [|destruct (String.eqb (w_goos w) "linux");
     [|destruct (String.eqb (w_goos w) "windows")]]);
    cbn -[exchangeCode run settle log_call put_stderr];
    repeat match goal with
           | |- context [w_schedule (log_call ?o ?x)] =>
               change (w_schedule (log_call o x)) with (w_schedule x)
           | |- context [w_schedule (put_stdout ?o ?x)] =>
               change (w_schedule (put_stdout o x)) with (w_schedule x)
           | |- context [w_schedule (tick ?x)] =>
               change (w_schedule (tick x)) with (w_schedule x)
           end;
    destruct (settle _); eexists; (split; [reflexivity|]); done.
Qed.

Lemma apiGet_replied (reply : string -> HttpResult) (ep : string) (ps : Values)
    (w : World) (f : File) (token : StoredToken) :
  w_files w !! token_path w = Some f ->
  json_Unmarshal_token (f_data f) = Ok token ->
  (forall n, w_clock w n + 5 * Minute <= ExpiresAt token) ->
  replies reply w ->
  exists w',
    apiGet ep ps w
    = (Done match reply (api_url ep ps) with
            | HttpErr e => Err e
            | HttpOk resp =>
                if StatusCode resp =? 200 then Ok (Body resp)
                else Err ("API error " +:+ fmt_d (StatusCode resp) +:+ ": "
                          +:+ Body resp)
            end, w') /\
    w_files w' = w_files w /\ token_path w' = token_path w /\
    w_clock w' = w_clock w /\ replies reply w' /\
    w_stdout w' = w_stdout w /\ w_stderr w' = w_stderr w /\
    w_http w' = w_http w ++ [api_request ep ps (AccessToken token)].
Proof.
  intros Hfile Hjson Hfresh Hnet.
  assert ((loadToken w).1 = Done (Ok token)) as Hload.
  { rewrite loadToken_eq. cbn. rewrite Hfile. now rewrite Hjson. }
  pose proof (getValidToken_loaded _ _ Hload) as Hvalid.
  unfold Time_After, Time_Add in Hvalid.
  pose proof (Hfresh (w_reads w)) as Hnow. apply Z.ltb_ge in Hnow.
  rewrite Hnow in Hvalid.
  unfold apiGet, bind. rewrite Hvalid. unfold http_Do.
  cbn [w_net tick visited log_call].
  rewrite (Hnet _ (api_url ep ps) ("Bearer " +:+ AccessToken token)).
  destruct (reply (api_url ep ps)) as [e|resp]; cbn.
  - eexists. split; [reflexivity|]. cbn. done.
  - destruct (StatusCode resp =? 200); cbn; eexists; (split; [reflexivity|]);
      cbn; done.
Qed.

Lemma fetchJSON_loop_replied (reply : string -> HttpResult) (eps : list string)
    (ps : Values) (result : gmap string string) (w : World) (f : File)
    (token : StoredToken) :
  w_files w !! token_path w = Some f ->
  json_Unmarshal_token (f_data f) = Ok token ->
  (forall n, w_clock w n + 5 * Minute <= ExpiresAt token) ->
  replies reply w ->
  exists w',
    fetchJSON_loop eps ps result w
    = (Done (fold_left (dump_step reply ps) eps result), w') /\
    w_stdout w' = w_stdout w /\ w_stderr w' = w_stderr w /\
    w_files w' = w_files w /\
    w_http w'
    = w_http w ++ map (fun ep => api_request ep ps (AccessToken token)) eps.
Proof.
  revert result w. induction eps as [|ep eps IH];
    intros result w Hfile Hjson Hfresh Hnet.
  - exists w. cbn. rewrite app_nil_r. done.
  - cbn [fetchJSON_loop fold_left map]. unfold bind.
    destruct (apiGet_replied reply ep ps w f token Hfile Hjson Hfresh Hnet)
      as (w1 & -> & Hf & Hp & Hc & Hnet1 & Ho & He & Hh).
    assert (w_files w1 !! token_path w1 = Some f) as Hfile1
      by (now rewrite Hp, Hf).
    assert (forall n, w_clock w1 n + 5 * Minute <= ExpiresAt token) as Hfresh1
      by (now rewrite Hc).
    unfold dump_step at 2. unfold kept.
    destruct (reply (api_url ep ps)) as [e|resp].
    + destruct (IH result w1 Hfile1 Hjson Hfresh1 Hnet1)
        as (w2 & -> & Ho2 & He2 & Hf2 & Hh2).
      exists w2. split; [reflexivity|].
      rewrite Ho2, He2, Hf2, Hh2, Ho, He, Hf, Hh, <- app_assoc. done.
    + destruct (StatusCode resp =? 200).
      * destruct (IH (<[TrimPrefix ep "/" := Body resp]> result) w1
                    Hfile1 Hjson Hfresh1 Hnet1)
          as (w2 & -> & Ho2 & He2 & Hf2 & Hh2).
        exists w2. split; [reflexivity|].
        rewrite Ho2, He2, Hf2, Hh2, Ho, He, Hf, Hh, <- app_assoc. done.
      * destruct (IH result w1 Hfile1 Hjson Hfresh1 Hnet1)
          as (w2 & -> & Ho2 & He2 & Hf2 & Hh2).
        exists w2. split; [reflexivity|].
        rewrite Ho2, He2, Hf2, Hh2, Ho, He, Hf, Hh, <- app_assoc. done.
Qed.

(** A name that no endpoint of the list has is left as it is. *)
Lemma dump_other (reply : string -> HttpResult) (ps : Values)
    (eps : list string) (m : gmap string string) (k : string) :
  k ∉ map (fun ep => TrimPrefix ep "/") eps ->
  fold_left (dump_step reply ps) eps m !! k = m !! k.
Proof.
  revert m. induction eps as [|ep eps IH]; intros m Hk; [reflexivity|].
  cbn [map] in Hk. apply not_elem_of_cons in Hk as [Hne Hk].
  cbn [fold_left]. rewrite IH by exact Hk.
  unfold dump_step. destruct (kept _); [|reflexivity].
  apply lookup_insert_ne. congruence.
Qed.

(** Under a name that is not there yet, the map holds what was kept of
    the reply for that endpoint. *)
Lemma dump_lookup (reply : string -> HttpResult) (ps : Values)
    (eps : list string) (m : gmap string string) (ep : string) :
  NoDup (map (fun ep => TrimPrefix ep "/") eps) -> ep ∈ eps ->
  m !! TrimPrefix ep "/" = None ->
  fold_left (dump_step reply ps) eps m !! TrimPrefix ep "/"
  = kept (reply (api_url ep ps)).
Proof.
  revert m. induction eps as [|e eps IH]; intros m Hnd Hin Hm;
    [inversion Hin|].
  cbn [map] in Hnd. apply NoDup_cons in Hnd as [Hfresh Hnd].
  cbn [fold_left].
  destruct (decide (ep = e)) as [->|Hne].
  - rewrite dump_other by exact Hfresh.
    unfold dump_step. destruct (kept (reply (api_url e ps))); [|exact Hm].
    apply lookup_insert_eq.
  - apply elem_of_cons in Hin as [Hin|Hin]; [done|].
    apply IH; [exact Hnd|exact Hin|].
    unfold dump_step. destruct (kept (reply (api_url e ps))); [|exact Hm].
    rewrite lookup_insert_ne; [exact Hm|].
    intros Heq. apply Hfresh. rewrite Heq.
    apply (list_elem_of_fmap_2 (fun ep => TrimPrefix ep "/")). exact Hin.
Qed.

Lemma endpoint_names_differ :
  NoDup (map (fun ep => TrimPrefix ep "/") endpoints).
Proof. apply (bool_decide_unpack _). vm_compute. exact I. Qed.

(** [exchangeCode] returns only when the token endpoint answered 200 with a
    body that could be decoded and the token was stored; otherwise it
    exits with status 1 and a message on the error stream. *)
Lemma exchangeCode_outcome (code : string) (w : World) :
  match (exchangeCode code w).1 with
  | Done _ =>
      exists resp granted,
        w_net w (length (w_http w)) (exchange_request code w) = HttpOk resp /\
        StatusCode resp = 200 /\
        json_Decode (Body resp) = Ok granted /\
        is_Some (w_files (exchangeCode code w).2 !! token_path w)
  | Exited c =>
      c = 1 /\
      exists msg, w_stderr (exchangeCode code w).2 = w_stderr w +:+ (msg +:+ nl)
  end.
Proof.
  unfold exchange_request.
  unfold exchangeCode, bind, get_config, http_Do, time_Now, saveToken,
    getTokenPath, getConfigDir, bind, os_UserHomeDir, os_MkdirAll,
    os_WriteFile, Eprint, os_Exit, Println, Print, ret.
  cbn.
  destruct (w_net w _ _) as [e|resp] eqn:Hnet; cbn.
  { split; [reflexivity|].
    exists ("Token exchange failed: " +:+ e). reflexivity. }
  destruct (Z.eqb_spec (StatusCode resp) 200) as [Hst|Hst]; cbn.
  2: { split; [reflexivity|].
       exists ("Token exchange failed: " +:+ Body resp). reflexivity. }
  destruct (json_Decode (Body resp)) as [granted|e] eqn:Hdec; cbn.
  2: { split; [reflexivity|].
       exists ("Failed to parse token: " +:+ e). reflexivity. }
  destruct (json_MarshalIndent _) as [data|e] eqn:Hm; cbn.
  2: { split; [reflexivity|].
       exists ("Failed to save token: " +:+ e). reflexivity. }
  match goal with |- context [w_writable w ?p] =>
    change p with (token_path w)
  end.
  destruct (w_writable w (token_path w)) eqn:Hwr; cbn.
  { exists resp, granted. rewrite lookup_insert_eq. done. }
  destruct (w_fault w (token_path w)) as [|kept0 e] eqn:Hfault; cbn.
  - split; [reflexivity|].
    exists ("Failed to save token: "
            +:+ ("open " +:+ token_path w +:+ ": permission denied")).
    reflexivity.
  - split; [reflexivity|].
    exists ("Failed to save token: " +:+ e). reflexivity.
Qed.

(** C5, as the code has it.  A failed request is fatal to every command
    but json.  For each category command, and for [all] and [today] at the
    first of their categories whose request fails, when the request the
    report is made from fails the error is printed to the error stream as
    [Error: ...] and the process exits with status 1.  The auth command
    returns only when the callback delivered a code, the token endpoint
    answered 200 with a body that could be decoded and the token was
    stored; otherwise it exits with status 1 and a message on the error
    stream.  The json command is different: it never fails, and where the
    reply to a request depends on its URL alone it requests every endpoint
    in turn, whatever failed before, and prints the object that holds,
    under each endpoint's name, the body of the reply when the status was
    200 and nothing otherwise.  The sleep command, too, goes on past a
    failure of its first request, the one for [/daily_sleep]. *)
Theorem failed_request_is_fatal_except_json (date : string) (w : World) :
  (forall c w0 e w1,
     before c date w = (Done tt, w0) ->
     apiGet (endpoint c) (params c date) w0 = (Done (Err e), w1) ->
     fetch c date w = (Exited 1, put_stderr ("Error: " +:+ e +:+ nl) w1) /\
     exit_status (fetch c date w).1 = 1) /\
  (forall c pre post w0 w1 e w2,
     fetchAll_steps date = pre ++ fetch c date :: post ->
     sequence pre (put_stdout (banner date) w) = (Done tt, w0) ->
     before c date w0 = (Done tt, w1) ->
     apiGet (endpoint c) (params c date) w1 = (Done (Err e), w2) ->
     fetchAll date w = (Exited 1, put_stderr ("Error: " +:+ e +:+ nl) w2)) /\
  (forall e w0 body w1,
     apiGet "/daily_sleep" (day_window date) w = (Done (Err e), w0) ->
     apiGet "/sleep" (day_window date) w0 = (Done (Ok body), w1) ->
     (fetchSleep date w).1 = Done tt /\
     w_stderr (fetchSleep date w).2 = w_stderr w1) /\
  match (doAuth w).1 with
  | Done _ =>
      exists code resp granted,
        settle (run (w_schedule w)
                  (start (fmt_d (Time_UnixNano (w_clock w (w_reads w))))))
        = GotCode code /\
        w_net w (length (w_http w)) (exchange_request code w) = HttpOk resp /\
        StatusCode resp = 200 /\
        json_Decode (Body resp) = Ok granted /\
        is_Some (w_files (doAuth w).2 !! token_path w)
  | Exited c =>
      c = 1 /\ exists msg, w_stderr (doAuth w).2 = w_stderr w +:+ (msg +:+ nl)
  end /\
  (exists w',
     fetchJSON date w = (Done tt, w') /\
     exit_status (fetchJSON date w).1 = 0 /\
     w_stderr w' = w_stderr w) /\
  (forall reply f token,
     w_files w !! token_path w = Some f ->
     json_Unmarshal_token (f_data f) = Ok token ->
     (forall n, w_clock w n + 5 * Minute <= ExpiresAt token) ->
     replies reply w ->
     w_http (fetchJSON date w).2
     = w_http w ++ map (fun ep => api_request ep (day_only date)
                                    (AccessToken token)) endpoints /\
     w_stdout (fetchJSON date w).2
     = w_stdout w
       +:+ (json_MarshalIndent_raw (partial_dump reply date) +:+ nl) /\
     forall ep, ep ∈ endpoints ->
       partial_dump reply date !! TrimPrefix ep "/"
       = kept (reply (api_url ep (day_only date)))).
Proof.
  assert (forall c w e w1 w0,
            before c date w = (Done tt, w0) ->
            apiGet (endpoint c) (params c date) w0 = (Done (Err e), w1) ->
            fetch c date w = (Exited 1, put_stderr ("Error: " +:+ e +:+ nl) w1))
    as Hfatal.
  { intros c wa e w1 w0 Hbefore Hget.
    destruct c; cbn [fetch before endpoint params] in *;
      try (unfold ret in Hbefore; injection Hbefore as <-;
           unfold fetchSleep, fetchActivity, fetchReadiness, fetchHeartRate, fetchStress,
             fetchSpO2, fetchResilience, fetchVO2Max, fetchWorkouts, bind;
           rewrite Hget; reflexivity).
    unfold bind, ret in Hbefore. unfold fetchSleep, bind.
    destruct (apiGet "/daily_sleep" (day_window date) wa) as [[daily|code] w0'];
      [|discriminate].
    injection Hbefore as ->. rewrite Hget. reflexivity. }
  split; [|split; [|split; [|split; [|split]]]].
  - intros c w0 e w1 Hbefore Hget.
    rewrite (Hfatal c w e w1 w0 Hbefore Hget). done.
  - intros c pre post w0 w1 e w2 Hsteps Hpre Hbefore Hget.
    change (fetchAll date w)
      with (sequence (fetchAll_steps date) (put_stdout (banner date) w)).
    rewrite Hsteps. eapply sequence_stops; [exact Hpre|].
    exact (Hfatal c w0 e w2 w1 Hbefore Hget).
  - intros e w0 body w1 Hdaily Hsleep.
    unfold fetchSleep, bind. rewrite Hdaily, Hsleep.
    destruct (List.filter _ _); cbn; done.
  - destruct (doAuth_select_env w)
      as (w0 & Hdo & Herr & Hhttp & Hfiles & Hconfig & Hnet & Hhome & _).
    rewrite Hdo.
    destruct (settle _) as [code|e|] eqn:Hsettle.
    + pose proof (exchangeCode_outcome code (log_call (OpServerClose ":8081") w0))
        as Hout.
      destruct (exchangeCode code (log_call (OpServerClose ":8081") w0)) as [[[]|c] w1].
      * destruct Hout as (resp & granted & Hr & Hst & Hdec & Hfile).
        exists code, resp, granted. split; [reflexivity|].
        unfold exchange_request in *. cbn [w_net w_http w_config log_call] in Hr.
        rewrite Hnet, Hhttp, Hconfig in Hr.
        split; [exact Hr|]. split; [exact Hst|]. split; [exact Hdec|].
        assert (token_path (log_call (OpServerClose ":8081") w0) = token_path w)
          as <- by (unfold token_path, config_dir; cbn; now rewrite Hhome).
        exact Hfile.
      * destruct Hout as (-> & msg & Hmsg). split; [reflexivity|].
        exists msg. cbn [snd] in *. rewrite Hmsg. cbn. now rewrite Herr.
    + cbn. split; [reflexivity|]. exists ("Auth error: " +:+ e). now rewrite Herr.
    + cbn. split; [reflexivity|]. exists "Auth timeout". now rewrite Herr.
  - unfold fetchJSON, bind.
    destruct (silent_fetchJSON_loop endpoints (day_only date) ∅ w)
      as (result & w' & -> & Hout & Herr).
    eexists. split; [reflexivity|]. split; [reflexivity|]. exact Herr.
  - intros reply f token Hfile Hjson Hfresh Hnet.
    unfold fetchJSON, bind.
    destruct (fetchJSON_loop_replied reply endpoints (day_only date) ∅ w f token
                Hfile Hjson Hfresh Hnet)
      as (w' & -> & Ho & He & Hf & Hh).
    unfold Println, Print. cbn [snd put_stdout w_http w_stdout].
    rewrite Hh, Ho. split; [reflexivity|]. split; [reflexivity|].
    intros ep Hin. unfold partial_dump.
    apply dump_lookup; [apply endpoint_names_differ|exact Hin|].
    apply lookup_empty.
Qed.

End Failures.

(** C5 as stated fails twice over.  With no token file every request of
    the json command fails, yet [oura json 2026-01-10] prints an empty
    object, writes nothing to the error stream and exits with status 0.
    And when the [/daily_sleep] request of the sleep command fails in
    transport while its [/sleep] request is answered, [oura sleep
    2026-01-10] prints its report (here the no-data line), writes nothing to
    the error stream and exits with status 0. *)
Lemma json_skips_failed_requests :
  let w := Fixture.world None Fixture.offline []
             ["oura"; "json"; "2026-01-10"] in
  let first_fails := fun (n : nat) (_ : HttpRequest) =>
                       match n with
                       | O => HttpErr "dial tcp: connection refused"
                       | S _ => HttpOk {| StatusCode := 200;
                                          Body := Fixture.no_data |}
                       end in
  let ws := Fixture.world (Some Fixture.fresh_text) first_fails []
              ["oura"; "sleep"; "2026-01-10"] in
  (forall ep,
     (@apiGet Fixture.lib ep (day_only "2026-01-10") w).1
     = Done (Err "not authenticated - run 'oura auth' first")) /\
  (@run_main Fixture.lib w).1 = 0 /\
  w_stderr (@run_main Fixture.lib w).2 = EmptyString /\
  w_stdout (@run_main Fixture.lib w).2 = "{}" +:+ nl /\
  (@apiGet Fixture.lib "/daily_sleep" (@day_window Fixture.lib "2026-01-10") ws).1
  = Done (Err "dial tcp: connection refused") /\
  (@run_main Fixture.lib ws).1 = 0 /\
  w_stderr (@run_main Fixture.lib ws).2 = EmptyString /\
  w_stdout (@run_main Fixture.lib ws).2 = "No sleep data for 2026-01-10" +:+ nl /\
  length (w_http (@run_main Fixture.lib ws).2) = 2%nat.
Proof. repeat split; vm_compute; reflexivity. Qed.

(** With no token file the stress command fails: [Error: ...], status 1. *)
Lemma failed_request_is_fatal_except_json_witness :
  let w := Fixture.world None Fixture.offline [] [] in
  (@fetch Fixture.lib Stress "2026-01-10" w).1 = Exited 1 /\
  w_stderr (@fetch Fixture.lib Stress "2026-01-10" w).2
  = "Error: not authenticated - run 'oura auth' first" +:+ nl.
Proof.
  intros w.
  destruct (@failed_request_is_fatal_except_json Fixture.lib "2026-01-10" w)
    as [Hfatal _].
  edestruct (Hfatal Stress) as [Hfetch _]; [reflexivity|reflexivity|].
  rewrite Hfetch. split; reflexivity.
Defined.

(** The same world, the sleep command, as a whole process. *)
Example sleep_unauthenticated :
  let w := Fixture.world None Fixture.offline []
             ["oura"; "sleep"; "2026-01-10"] in
  (@run_main Fixture.lib w).1 = 1 /\
  w_stderr (@run_main Fixture.lib w).2
  = "Error: not authenticated - run 'oura auth' first" +:+ nl.
Proof. split; vm_compute; reflexivity. Qed.

(** * Further properties *)

(** ** [formatDuration] *)

(** For a duration that is not negative, [formatDuration] shows whole
    hours and minutes, the seconds dropped: the minutes are below 60, the
    hours appear exactly from one hour on, and what is shown is at most 59
    seconds short of the duration. *)
Theorem formatDuration_hours_and_minutes (seconds : Z) :
  0 <= seconds ->
  exists h m,
    0 <= h /\ 0 <= m < 60 /\
    3600 * h + 60 * m <= seconds < 3600 * h + 60 * m + 60 /\
    (3600 <= seconds <-> 0 < h) /\
    formatDuration seconds
    = if 0 <? h then fmt_d h +:+ "h " +:+ fmt_d m +:+ "m"
      else fmt_d m +:+ "m".
Proof.
  intros Hs. exists (Z.quot seconds 3600), (Z.quot (Z.rem seconds 3600) 60).
  rewrite Z.quot_div_nonneg, Z.rem_mod_nonneg by lia.
  assert (0 <= seconds mod 3600 < 3600) as Hr by (apply Z.mod_pos_bound; lia).
  rewrite Z.quot_div_nonneg by lia.
  pose proof (Z.div_mod seconds 3600 ltac:(lia)) as Hd.
  pose proof (Z.div_mod (seconds mod 3600) 60 ltac:(lia)) as Hm.
  pose proof (Z.mod_pos_bound (seconds mod 3600) 60 ltac:(lia)) as Hm60.
  assert (0 <= seconds / 3600) by (apply Z.div_pos; lia).
  assert (0 <= (seconds mod 3600) / 60 < 60)
    by (split; [apply Z.div_pos; lia | apply Z.div_lt_upper_bound; lia]).
  repeat split; try lia.
  unfold formatDuration.
  rewrite Z.quot_div_nonneg, Z.rem_mod_nonneg by lia.
  rewrite Z.quot_div_nonneg by lia. reflexivity.
Qed.

Lemma formatDuration_hours_and_minutes_witness :
  exists h m,
    0 <= h /\ 0 <= m < 60 /\
    3600 * h + 60 * m <= 21799 < 3600 * h + 60 * m + 60 /\
    (3600 <= 21799 <-> 0 < h) /\
    formatDuration 21799
    = if 0 <? h then fmt_d h +:+ "h " +:+ fmt_d m +:+ "m"
      else fmt_d m +:+ "m".
Proof. apply (formatDuration_hours_and_minutes 21799). lia. Defined.

Example formatDuration_6h_3m : formatDuration 21799 = "6h 3m".
Proof. reflexivity. Qed.

(** Below one hour, and so for every negative duration, only minutes are
    shown: a negative duration loses its hours, and a negative whole
    number of hours is shown as [0m]. *)
Theorem formatDuration_below_an_hour (seconds : Z) :
  seconds < 3600 ->
  let m := Z.quot (Z.rem seconds 3600) 60 in
  formatDuration seconds = fmt_d m +:+ "m" /\
  -60 < m < 60 /\
  (Z.rem seconds 3600 = 0 -> formatDuration seconds = "0m").
Proof.
  intros Hs m. unfold formatDuration. fold m.
  assert (Z.quot seconds 3600 <= 0) as Hh.
  { destruct (Z.le_gt_cases 0 seconds).
    - rewrite Z.quot_small; lia.
    - apply Z.quot_le_upper_bound; lia. }
  destruct (Z.ltb_spec 0 (Z.quot seconds 3600)); [lia|].
  split; [reflexivity|].
  assert (Z.abs (Z.rem seconds 3600) < 3600) as Hr
    by (pose proof (Z.rem_bound_abs seconds 3600 ltac:(lia)); lia).
  split.
  - subst m. pose proof (Z.quot_rem' (Z.rem seconds 3600) 60) as Hq.
    destruct (Z.le_gt_cases 0 (Z.rem seconds 3600)) as [Hpos|Hneg].
    + pose proof (Z.rem_bound_pos (Z.rem seconds 3600) 60 Hpos ltac:(lia)). lia.
    + pose proof (Z.rem_bound_pos_neg (Z.rem seconds 3600) 60 ltac:(lia) ltac:(lia)).
      lia.
  - intros Hz. subst m. rewrite Hz. reflexivity.
Qed.

Lemma formatDuration_below_an_hour_witness :
  formatDuration (-7200) = "0m" /\ formatDuration (-3700) = "-1m".
Proof.
  destruct (formatDuration_below_an_hour (-7200)) as (_ & _ & Hz); [lia|].
  destruct (formatDuration_below_an_hour (-3700)) as (Hm & _ & _); [lia|].
  split; [apply Hz; reflexivity|exact Hm].
Defined.

Lemma uint_all_numeric (d : Decimal.uint) :
  all_numeric (NilEmpty.string_of_uint d) = true.
Proof. induction d; cbn; auto. Qed.

Lemma fmt_d_all_numeric (z : Z) : all_numeric (fmt_d z) = true.
Proof.
  unfold fmt_d. destruct (Z.to_int z) as [d|d]; cbn;
    destruct d; cbn; rewrite ?uint_all_numeric; reflexivity.
Qed.

(** Two texts that start with digits and go on with a letter agree on the
    digits, on the letter and on the rest. *)
Lemma split_at_letter (s1 s2 : string) (c1 c2 : Ascii.ascii) (r1 r2 : string) :
  all_numeric s1 = true -> all_numeric s2 = true ->
  numeric c1 = false -> numeric c2 = false ->
  s1 +:+ String c1 r1 = s2 +:+ String c2 r2 ->
  s1 = s2 /\ c1 = c2 /\ r1 = r2.
Proof.
  revert s2. induction s1 as [|a s1 IH]; intros [|b s2] H1 H2 Hc1 Hc2 E;
    cbn in *.
  - now injection E.
  - injection E as -> _. apply andb_prop in H2 as [H2 _]. congruence.
  - injection E as -> _. apply andb_prop in H1 as [H1 _]. congruence.
  - injection E as -> E. apply andb_prop in H1 as [_ H1].
    apply andb_prop in H2 as [_ H2].
    destruct (IH s2 H1 H2 Hc1 Hc2 E) as (-> & -> & ->). done.
Qed.

(** Two durations that are not negative are shown alike only when they
    agree to the minute. *)
Theorem formatDuration_tells_minutes_apart (a b : Z) :
  0 <= a -> 0 <= b ->
  formatDuration a = formatDuration b -> a / 60 = b / 60.
Proof.
  intros Ha Hb.
  assert (forall x, 0 <= x ->
            Z.quot x 3600 = x / 3600 /\
            Z.quot (Z.rem x 3600) 60 = (x mod 3600) / 60 /\
            0 <= x / 3600 /\
            x / 60 = 60 * (x / 3600) + (x mod 3600) / 60) as Hparts.
  { intros x Hx.
    assert (0 <= x mod 3600 < 3600) by (apply Z.mod_pos_bound; lia).
    rewrite Z.quot_div_nonneg, Z.rem_mod_nonneg by lia.
    rewrite Z.quot_div_nonneg by lia.
    split; [reflexivity|]. split; [reflexivity|].
    split; [apply Z.div_pos; lia|].
    rewrite (Z.div_mod x 3600) at 1 by lia.
    replace (3600 * (x / 3600) + x mod 3600)
      with (60 * (x / 3600) * 60 + x mod 3600) by ring.
    rewrite Z.div_add_l by lia. reflexivity. }
  destruct (Hparts a Ha) as (Hha & Hma & Hha0 & ->).
  destruct (Hparts b Hb) as (Hhb & Hmb & Hhb0 & ->).
  unfold formatDuration. rewrite Hha, Hma, Hhb, Hmb.
  set (ha := a / 3600) in *. set (hb := b / 3600) in *.
  set (ma := a mod 3600 / 60). set (mb := b mod 3600 / 60).
  assert (forall x y, fmt_d x +:+ "m" = fmt_d y +:+ "m" -> x = y) as Hmin.
  { intros x y E.
    apply split_at_letter in E as (E & _ & _);
      auto using fmt_d_all_numeric, fmt_d_inj. }
  destruct (Z.ltb_spec 0 ha), (Z.ltb_spec 0 hb); intros E.
  - apply split_at_letter in E as (Eh & _ & Er);
      auto using fmt_d_all_numeric.
    apply fmt_d_inj in Eh. injection Er as Er. apply Hmin in Er. lia.
  - apply split_at_letter in E as (_ & [=] & _); auto using fmt_d_all_numeric.
  - apply split_at_letter in E as (_ & [=] & _); auto using fmt_d_all_numeric.
  - apply Hmin in E. lia.
Qed.

Lemma formatDuration_tells_minutes_apart_witness : 21799 / 60 = 21780 / 60.
Proof.
  apply (formatDuration_tells_minutes_apart 21799 21780); [lia|lia|reflexivity].
Defined.

(** ** Start-up *)

Section Startup.
Context `{Extern}.

Lemma loadConfig_eq (w : World) :
  loadConfig w =
  match w_files w !! config_path w with
  | None =>
      (Done (Some ("missing config: " +:+ config_path w +:+ nl
                   +:+ "Create it with:" +:+ nl +:+ "{" +:+ nl
                   +:+ "  " +:+ dq +:+ "client_id" +:+ dq +:+ ": "
                   +:+ dq +:+ "your-id" +:+ dq +:+ "," +:+ nl
                   +:+ "  " +:+ dq +:+ "client_secret" +:+ dq +:+ ": "
                   +:+ dq +:+ "your-secret" +:+ dq +:+ nl +:+ "}")),
       visited w)
  | Some f =>
      match json_Unmarshal_config (f_data f) with
      | Err e => (Done (Some e), visited w)
      | Ok c => (Done None, set_config c (visited w))
      end
  end.
Proof.
  unfold loadConfig, bind. rewrite getConfigDir_eq. unfold os_ReadFile.
  change (w_files (visited w)) with (w_files w).
  change (filepath_Join [config_dir w; "config.json"]) with (config_path w).
  destruct (w_files w !! config_path w) as [f|]; [|reflexivity].
  destruct (json_Unmarshal_config (f_data f)); reflexivity.
Qed.

(** When the configuration file is missing or cannot be decoded, [main]
    runs no command: it prints the error to the error stream and exits
    with status 1, having sent nothing and printed nothing else.  For a
    missing file the message names the expected path and shows the JSON to
    put there. *)
Theorem bad_config_stops_main (w : World) (prog cmd : string)
    (rest : list string) :
  w_args w = prog :: cmd :: rest ->
  (forall f c, w_files w !! config_path w = Some f ->
               json_Unmarshal_config (f_data f) <> Ok c) ->
  exists e,
    main w = (Exited 1, put_stderr (e +:+ nl) (visited w)) /\
    (w_files w !! config_path w = None ->
     e = "missing config: " +:+ config_path w +:+ nl
         +:+ "Create it with:" +:+ nl +:+ "{" +:+ nl
         +:+ "  " +:+ dq +:+ "client_id" +:+ dq +:+ ": "
         +:+ dq +:+ "your-id" +:+ dq +:+ "," +:+ nl
         +:+ "  " +:+ dq +:+ "client_secret" +:+ dq +:+ ": "
         +:+ dq +:+ "your-secret" +:+ dq +:+ nl +:+ "}").
Proof.
  intros Hargs Hbad. unfold main, bind, os_Args. rewrite Hargs.
  rewrite loadConfig_eq.
  destruct (w_files w !! config_path w) as [f|] eqn:Hfile.
  - destruct (json_Unmarshal_config (f_data f)) as [c|e] eqn:Hc.
    + now destruct (Hbad f c eq_refl).
    + exists e. split; [reflexivity|discriminate].
  - eexists. split; [reflexivity|]. reflexivity.
Qed.

Lemma dispatch_unknown (cmd : string) :
  cmd ∉ commands -> dispatch cmd = (run* printUsage in os_Exit 1).
Proof.
  intros Hnot. unfold dispatch.
  repeat match goal with
         | |- context [String.eqb cmd ?known] =>
             let E := fresh in
             destruct (String.eqb_spec cmd known) as [E|E];
             [exfalso; apply Hnot; rewrite E; unfold commands; set_solver|]
         end.
  reflexivity.
Qed.

(** Without a command, or with one the switch does not know (the
    configuration having loaded), [main] prints the usage text to standard
    output and exits with status 1: no request is sent, no file changes,
    nothing is written to the error stream. *)
Theorem unknown_command_prints_usage (w : World) :
  (forall cmd, w_args w !! 1%nat = Some cmd ->
               (cmd ∉ commands) /\ (loadConfig w).1 = Done None) ->
  (main w).1 = Exited 1 /\
  w_stdout (main w).2 = w_stdout w +:+ (usage +:+ nl) /\
  w_stderr (main w).2 = w_stderr w /\
  w_http (main w).2 = w_http w /\
  w_files (main w).2 = w_files w.
Proof.
  intros Hcmd. unfold main, bind, os_Args.
  destruct (w_args w) as [|prog [|cmd rest]]; try done.
  destruct (Hcmd cmd eq_refl) as [Hnot Hload].
  rewrite (dispatch_unknown cmd Hnot).
  rewrite loadConfig_eq in *.
  destruct (w_files w !! config_path w) as [f|]; [|discriminate].
  destruct (json_Unmarshal_config (f_data f)); [|discriminate].
  done.
Qed.

End Startup.

(** No configuration file: [oura sleep] stops at start-up. *)
Lemma bad_config_stops_main_witness :
  let w := {| w_clock := fun _ => Fixture.noon; w_reads := 0;
              w_home := Fixture.home; w_goos := "linux"; w_files := ∅;
              w_writable := fun _ => true;
     w_fault := fun _ => FailsAtOpen; w_net := Fixture.offline;
              w_schedule := []; w_http := []; w_calls := [];
              w_stdout := EmptyString; w_stderr := EmptyString;
              w_config := {| ClientID := EmptyString;
                             ClientSecret := EmptyString |};
              w_args := ["oura"; "sleep"] |} in
  exists e,
    @main Fixture.lib w = (Exited 1, put_stderr (e +:+ nl) (@visited Fixture.lib w)) /\
    (w_files w !! @config_path Fixture.lib w = None ->
     e = "missing config: /home/u/.config/oura/config.json" +:+ nl
         +:+ "Create it with:" +:+ nl +:+ "{" +:+ nl
         +:+ "  " +:+ dq +:+ "client_id" +:+ dq +:+ ": "
         +:+ dq +:+ "your-id" +:+ dq +:+ "," +:+ nl
         +:+ "  " +:+ dq +:+ "client_secret" +:+ dq +:+ ": "
         +:+ dq +:+ "your-secret" +:+ dq +:+ nl +:+ "}").
Proof.
  intros w.
  apply (@bad_config_stops_main Fixture.lib w "oura" "sleep" []).
  - reflexivity.
  - intros f c Hf. vm_compute in Hf. discriminate.
Defined.

(** [oura hrv] is not a command of the switch. *)
Lemma unknown_command_prints_usage_witness :
  let w := Fixture.world None Fixture.offline [] ["oura"; "hrv"] in
  (@main Fixture.lib w).1 = Exited 1 /\
  w_stdout (@main Fixture.lib w).2 = w_stdout w +:+ (usage +:+ nl) /\
  w_stderr (@main Fixture.lib w).2 = w_stderr w /\
  w_http (@main Fixture.lib w).2 = w_http w /\
  w_files (@main Fixture.lib w).2 = w_files w.
Proof.
  intros w. apply (@unknown_command_prints_usage Fixture.lib w).
  intros cmd [= <-]. split; [|reflexivity].
  unfold commands. intros Hin.
  repeat (apply elem_of_cons in Hin as [Hin|Hin]; [discriminate|]).
  inversion Hin.
Defined.

(** ** The token manager, further *)

Section TokenManager.
Context `{Extern}.

(** Without a token file that can be read, an API call sends nothing: it
    fails with the advice to authenticate, and each category command
    prints that error and exits with status 1, no request sent and no file
    changed. *)
Theorem unauthenticated_sends_nothing (w : World) :
  (forall f token, w_files w !! token_path w = Some f ->
                   json_Unmarshal_token (f_data f) <> Ok token) ->
  (forall ep ps,
     apiGet ep ps w
     = (Done (Err "not authenticated - run 'oura auth' first"), visited w)) /\
  (forall c date,
     (fetch c date w).1 = Exited 1 /\
     w_stderr (fetch c date w).2
     = w_stderr w +:+ ("Error: " +:+ "not authenticated - run 'oura auth' first" +:+ nl) /\
     w_stdout (fetch c date w).2 = w_stdout w /\
     w_http (fetch c date w).2 = w_http w /\
     w_files (fetch c date w).2 = w_files w).
Proof.
  intros Hnone.
  assert (forall w', w_files w' = w_files w -> w_home w' = w_home w ->
            forall ep ps,
              apiGet ep ps w'
              = (Done (Err "not authenticated - run 'oura auth' first"),
                 visited w')) as Hget.
  { intros w' Hf Hh ep ps. unfold apiGet, getValidToken, bind.
    rewrite loadToken_eq.
    assert (token_path w' = token_path w) as ->
      by (unfold token_path, config_dir; now rewrite Hh).
    rewrite Hf.
    destruct (w_files w !! token_path w) as [f|] eqn:Hfile; [|reflexivity].
    destruct (json_Unmarshal_token (f_data f)) as [token|e] eqn:Hj;
      [|reflexivity].
    now destruct (Hnone f token eq_refl). }
  split; [apply Hget; reflexivity|].
  intros c date.
  destruct c; cbn [fetch];
    unfold fetchSleep, fetchActivity, fetchReadiness, fetchHeartRate,
      fetchStress, fetchSpO2, fetchResilience, fetchVO2Max, fetchWorkouts, bind;
    rewrite !Hget by reflexivity; cbn;
    rewrite ?Hget by reflexivity; cbn; done.
Qed.

(** A failure of [getValidToken] leaves every file as it was, with one
    exception.  No token, a transport error, a rejected refresh, a response
    that cannot be decoded, a record that cannot be encoded and a token file
    that cannot be opened change no file.  When [os.WriteFile] fails after
    it has opened the token file, that file, and no other, is left
    truncated: it holds the bytes of the new record that were written, and
    the old token is gone. *)
Theorem getValidToken_failure_and_files (w w' : World) (e : string) :
  getValidToken w = (Done (Err e), w') ->
  (forall p, p <> token_path w -> w_files w' !! p = w_files w !! p) /\
  (w_files w' = w_files w \/
   exists kept e0 data,
     w_writable w (token_path w) = false /\
     w_fault w (token_path w) = FailsAfterOpen kept e0 /\
     e = "token refresh failed - run 'oura auth' again: " +:+ e0 /\
     f_data <$> (w_files w' !! token_path w)
     = Some (String.substring 0 kept data)).
Proof.
  unfold getValidToken, bind. rewrite loadToken_eq.
  destruct (w_files w !! token_path w) as [f|] eqn:Hfile;
    [|intros [= _ <-]; split; [reflexivity|now left]].
  destruct (json_Unmarshal_token (f_data f)) as [token|e0];
    [|intros [= _ <-]; split; [reflexivity|now left]].
  unfold time_Now. cbn -[refreshToken].
  destruct (Time_After _ _); [|discriminate].
  unfold refreshToken, bind, get_config, http_Do, time_Now, saveToken,
    getTokenPath, getConfigDir, bind, os_UserHomeDir, os_MkdirAll,
    os_WriteFile, ret.
  cbn.
  destruct (w_net w _ _) as [e1|resp];
    [intros [= _ <-]; split; [reflexivity|now left]|].
  destruct (negb (StatusCode resp =? 200));
    [intros [= _ <-]; split; [reflexivity|now left]|].
  destruct (json_Decode (Body resp)) as [granted|e1];
    [|intros [= _ <-]; split; [reflexivity|now left]].
  cbn.
  destruct (json_MarshalIndent _) as [data|e1];
    [|intros [= _ <-]; split; [reflexivity|now left]].
  cbn.
  match goal with |- context [w_writable w ?p] =>
    change p with (token_path w)
  end.
  destruct (w_writable w (token_path w)) eqn:Hwr; [discriminate|].
  destruct (w_fault w (token_path w)) as [|kept e1] eqn:Hfault; cbn.
  - intros [= _ <-]. split; [reflexivity|now left].
  - intros [= <- <-]. cbn. split.
    + intros p Hp. now rewrite lookup_insert_ne.
    + right. exists kept, e1, data. rewrite lookup_insert_eq. done.
Qed.

(** A refresh that succeeds: [getValidToken] returns the access token of
    the response, not the stored one, and the token file then holds the
    new record, which expires [expires_in] seconds after the time the
    response was read (for an [expires_in] in seconds that fits a
    [Duration]); read back, it is the record [loadToken] returns. *)
Theorem refresh_stores_the_new_token (w : World) (token : StoredToken)
    (resp : HttpResponse) (granted : TokenResponse) (data : string) :
  (loadToken w).1 = Done (Ok token) ->
  ExpiresAt token < w_clock w (w_reads w) + 5 * Minute ->
  w_net w (length (w_http w)) (refresh_request token w) = HttpOk resp ->
  StatusCode resp = 200 ->
  json_Decode (Body resp) = Ok granted ->
  let stored := stored_of granted (w_clock w (S (w_reads w))) in
  json_MarshalIndent stored = Ok data ->
  w_writable w (token_path w) = true ->
  exists w',
    getValidToken w = (Done (Ok (resp_AccessToken granted)), w') /\
    f_data <$> (w_files w' !! token_path w) = Some data /\
    (0 <= resp_ExpiresIn granted <= 9223372036 ->
     ExpiresAt stored
     = w_clock w (S (w_reads w)) + resp_ExpiresIn granted * Second) /\
    (json_Unmarshal_token data = Ok stored ->
     (loadToken w').1 = Done (Ok stored)).
Proof.
  intros Hload Hdue Hnet Hst Hdec stored Hm Hwr.
  rewrite (getValidToken_loaded _ _ Hload).
  unfold Time_After, Time_Add. apply Z.ltb_lt in Hdue. rewrite Hdue.
  unfold refreshToken, bind, get_config, http_Do.
  cbn [w_net w_http w_config tick visited log_call].
  unfold refresh_request in Hnet. rewrite Hnet, Hst. cbn [Z.eqb negb Pos.eqb].
  cbn [Body] in *. rewrite Hdec. unfold time_Now.
  cbn [w_clock w_reads tick visited log_call log_http].
  fold stored. unfold saveToken. rewrite Hm. unfold bind.
  rewrite getTokenPath_eq. unfold os_WriteFile.
  cbn [w_writable w_files visited log_call log_http tick].
  change (token_path _) with (token_path w). rewrite Hwr.
  eexists. split; [reflexivity|]. split; [|split].
  - cbn. now rewrite lookup_insert_eq.
  - intros Hrange. unfold stored, stored_of, Time_Add. cbn [ExpiresAt].
    rewrite wrap64_small; [reflexivity|]. unfold in_int64, Second. lia.
  - intros Hback. rewrite loadToken_eq. cbn.
    change (token_path _) with (token_path w).
    rewrite lookup_insert_eq. cbn. now rewrite Hback.
Qed.

End TokenManager.

(** No token file: the sleep command sends nothing and fails. *)
Lemma unauthenticated_sends_nothing_witness :
  let w := Fixture.world None Fixture.offline [] [] in
  (@fetch Fixture.lib Sleep "2026-01-10" w).1 = Exited 1 /\
  w_stderr (@fetch Fixture.lib Sleep "2026-01-10" w).2
  = w_stderr w +:+ ("Error: " +:+ "not authenticated - run 'oura auth' first" +:+ nl) /\
  w_stdout (@fetch Fixture.lib Sleep "2026-01-10" w).2 = w_stdout w /\
  w_http (@fetch Fixture.lib Sleep "2026-01-10" w).2 = w_http w /\
  w_files (@fetch Fixture.lib Sleep "2026-01-10" w).2 = w_files w.
Proof.
  intros w.
  destruct (@unauthenticated_sends_nothing Fixture.lib w) as [_ Hfetch].
  - intros f token Hf. vm_compute in Hf. discriminate.
  - apply Hfetch.
Defined.

(** A stale token, a token endpoint that grants, and a disk that is full:
    the token file is opened and nothing is written. *)
Lemma getValidToken_failure_and_files_witness :
  let full := "write /home/u/.config/oura/token.json: no space left on device" in
  let w := failing_at "/home/u/.config/oura/token.json" (FailsAfterOpen 0 full)
             (Fixture.world (Some Fixture.stale_text)
                (Granting.granting Fixture.no_data) [] []) in
  let w' := (@getValidToken Granting.lib w).2 in
  (forall p, p <> @token_path Granting.lib w ->
             w_files w' !! p = w_files w !! p) /\
  (w_files w' = w_files w \/
   exists kept e0 data,
     w_writable w (@token_path Granting.lib w) = false /\
     w_fault w (@token_path Granting.lib w) = FailsAfterOpen kept e0 /\
     "token refresh failed - run 'oura auth' again: " +:+ full
     = "token refresh failed - run 'oura auth' again: " +:+ e0 /\
     f_data <$> (w_files w' !! @token_path Granting.lib w)
     = Some (String.substring 0 kept data)).
Proof.
  intros full w w'. subst w'.
  assert ((@getValidToken Granting.lib w).1
          = Done (Err ("token refresh failed - run 'oura auth' again: "
                       +:+ full))) as Hfails
    by (vm_compute; reflexivity).
  destruct (@getValidToken Granting.lib w) as [o w1] eqn:Hrun.
  cbn [fst snd] in *. subst o.
  exact (@getValidToken_failure_and_files Granting.lib w w1 _ Hrun).
Defined.

(** On that world the refresh fails and the token that was on file is
    lost: the file is empty. *)
Example refresh_failure_empties_token_file :
  let full := "write /home/u/.config/oura/token.json: no space left on device" in
  let w := failing_at "/home/u/.config/oura/token.json" (FailsAfterOpen 0 full)
             (Fixture.world (Some Fixture.stale_text)
                (Granting.granting Fixture.no_data) [] []) in
  (@getValidToken Granting.lib w).1
  = Done (Err ("token refresh failed - run 'oura auth' again: " +:+ full)) /\
  f_data <$> (w_files w !! @token_path Granting.lib w)
  = Some Fixture.stale_text /\
  f_data <$> (w_files (@getValidToken Granting.lib w).2
                !! @token_path Granting.lib w)
  = Some EmptyString.
Proof. repeat split; vm_compute; reflexivity. Qed.

(** A stale token and a token endpoint that grants a token for a day. *)
Lemma refresh_stores_the_new_token_witness :
  let w := Fixture.world (Some Fixture.stale_text)
             (Granting.granting Fixture.no_data) [] [] in
  exists w',
    @getValidToken Granting.lib w = (Done (Ok "at-new"), w') /\
    f_data <$> (w_files w' !! @token_path Granting.lib w)
    = Some Granting.granted_text /\
    (0 <= 86400 <= 9223372036 ->
     ExpiresAt (@stored_of Granting.grant Fixture.noon)
     = Fixture.noon + 86400 * Second) /\
    (@json_Unmarshal_token Granting.lib Granting.granted_text
     = Ok (@stored_of Granting.grant Fixture.noon) ->
     (@loadToken Granting.lib w').1
     = Done (Ok (@stored_of Granting.grant Fixture.noon))).
Proof.
  intros w.
  apply (@refresh_stores_the_new_token Granting.lib w Fixture.stale
           {| StatusCode := 200; Body := Granting.grant_text |}
           Granting.grant Granting.granted_text).
  - reflexivity.
  - vm_compute. reflexivity.
  - reflexivity.
  - reflexivity.
  - reflexivity.
  - reflexivity.
  - reflexivity.
Defined.

(** ** The code exchange *)

Section Exchange.
Context `{Extern}.


End Exchange.

(** The code is granted and the token stored. *)
Example exchangeCode_stores :
  let w := Fixture.world None (Granting.granting Fixture.no_data) [] [] in
  (@exchangeCode Granting.lib "code-1" w).1 = Done tt /\
  f_data <$> (w_files (@exchangeCode Granting.lib "code-1" w).2
                !! @token_path Granting.lib w)
  = Some Granting.granted_text.
Proof. split; vm_compute; reflexivity. Qed.

(** The exchange is rejected and nothing is stored. *)
Example exchangeCode_exits :
  let w := Fixture.world None Fixture.rejecting [] [] in
  @exchangeCode Fixture.lib "code-1" w
  = (Exited 1,
     put_stderr ("Token exchange failed: " +:+ Fixture.invalid_grant +:+ nl)
       (log_http (@exchange_request "code-1" w) w)).
Proof. reflexivity. Qed.

(** ** The callback session, further *)

Section Provenance.
Import Auth.

(** Whatever the schedule, a code the select ends with came in a request
    of that schedule whose state equals the session's state, and is not
    empty: a callback with a wrong state or without a code never makes the
    controller exchange anything. *)
Theorem only_a_checked_code_is_taken (state : string) (evs : list Event)
    (code : string) :
  settle (run evs (start state)) = GotCode code ->
  code <> EmptyString /\
  exists r, Arrive r ∈ evs /\ query_state r = state /\ query_code r = code.
Proof.
  intros Hsettle.
  assert (codes_checked state evs (run evs (start state)))
    as (_ & Hchan & _ & Hctl).
  { apply run_codes_checked; [set_solver|].
    split; [reflexivity|]. cbn.
    split; [intros c Hin; inversion Hin|].
    split; [intros i ops c Hi; destruct i; discriminate|].
    intros c [[=]|[=]]. }
  unfold settle in Hsettle.
  destruct (controller (run evs (start state))) as [|b|b] eqn:Hc.
  - destruct (codeChan (run evs (start state))) as [|c q] eqn:Hq.
    + destruct (errChan (run evs (start state))); discriminate.
    + injection Hsettle as ->. apply Hchan. now apply elem_of_cons; left.
  - subst b. apply Hctl. now left.
  - subst b. apply Hctl. now right.
Qed.

End Provenance.

(** A forged callback and a genuine one, the genuine one taken. *)
Lemma only_a_checked_code_is_taken_witness :
  let state := "1768046400000000000" in
  let forged := {| Auth.query_state := "forged"; Auth.query_code := "code-x" |} in
  let genuine := {| Auth.query_state := state; Auth.query_code := "code-1" |} in
  let evs := [Auth.Arrive forged; Auth.Arrive genuine; Auth.Step 1;
              Auth.Step 1; Auth.Step 0; Auth.TakeCode; Auth.Close] in
  "code-1" <> EmptyString /\
  exists r, Auth.Arrive r ∈ evs /\
            Auth.query_state r = state /\ Auth.query_code r = "code-1".
Proof.
  intros state forged genuine evs.
  apply (only_a_checked_code_is_taken state evs "code-1"). reflexivity.
Defined.

(** ** The [auth] command, further *)

Section AuthSuccess.
Context `{Extern}.
Import Auth.

(** Whenever the select ends with a code, whatever the interleaving,
    [doAuth] closes the server and goes on as [exchangeCode] of exactly
    that code, with the files, the configuration and the request log as
    they were when the command began.  And the select does end with the
    code of a callback that carries the session's state and a code, when
    that callback arrives while the select is waiting with an empty code
    channel, its handler runs and its code is received, whatever happened
    before and whatever happens after. *)
Theorem genuine_callback_is_exchanged (w : World) :
  let state := fmt_d (Time_UnixNano (w_clock w (w_reads w))) in
  let s := run (w_schedule w) (start state) in
  (forall pre r later,
     query_state r = state -> query_code r <> EmptyString ->
     let s0 := run pre (start state) in
     let i := length (goroutines s0) in
     controller s0 = InSelect -> listening s0 = true -> codeChan s0 = [] ->
     w_schedule w = pre ++ Arrive r :: Step i :: Step i :: TakeCode :: later ->
     settle s = GotCode (query_code r)) /\
  (forall code, settle s = GotCode code ->
     exists w1,
       doAuth w = exchangeCode code w1 /\
       last (w_calls w1) = Some (OpServerClose ":8081") /\
       w_http w1 = w_http w /\ w_files w1 = w_files w /\
       w_config w1 = w_config w /\ w_stderr w1 = w_stderr w).
Proof.
  intros state s. split.
  - intros pre r later Hs Hcode s0 i Hc Hl Hq Hsched. subst s. rewrite Hsched.
    change (Arrive r :: Step i :: Step i :: TakeCode :: later)
      with ([Arrive r; Step i; Step i] ++ TakeCode :: later).
    rewrite !run_app. fold s0.
    destruct (genuine_handled state r s0) as (H1 & H2 & _); try done.
    { apply run_state_token. }
    apply settle_took.
    change (run (TakeCode :: later) ?x) with (run later (exec TakeCode x)).
    apply run_took. eapply take_code; eauto.
  - intros code Hcode.
    destruct (doAuth_select_env w)
      as (w0 & Hdo & Herr & Hhttp & Hfiles & Hconfig & _).
    fold state in Hdo. fold s in Hdo. rewrite Hcode in Hdo.
    exists (log_call (OpServerClose ":8081") w0).
    split; [exact Hdo|]. cbn. rewrite last_snoc. done.
Qed.

End AuthSuccess.

(** A forged callback is waiting to be handled when the browser comes back
    with the code; the token endpoint grants: the code is exchanged. *)
Lemma genuine_callback_is_exchanged_witness :
  let forged := {| Auth.query_state := "forged"; Auth.query_code := "code-x" |} in
  let r := {| Auth.query_state := "1768046400000000000";
              Auth.query_code := "code-1" |} in
  let w := Fixture.world None (Granting.granting Fixture.no_data)
             [Auth.Arrive forged; Auth.Wait Second; Auth.Arrive r; Auth.Step 1;
              Auth.Step 1; Auth.TakeCode; Auth.Close; Auth.Step 0]
             ["oura"; "auth"] in
  exists w1,
    @doAuth Granting.lib w = @exchangeCode Granting.lib "code-1" w1 /\
    last (w_calls w1) = Some (OpServerClose ":8081") /\
    w_http w1 = w_http w /\ w_files w1 = w_files w /\
    w_config w1 = w_config w /\ w_stderr w1 = w_stderr w.
Proof.
  intros forged r w.
  destruct (@genuine_callback_is_exchanged Granting.lib w) as [Htaken Hgoes].
  apply Hgoes.
  apply (Htaken [Auth.Arrive forged; Auth.Wait Second] r
           [Auth.Close; Auth.Step 0]); try reflexivity.
  discriminate.
Defined.

Example auth_success_process :
  let r := {| Auth.query_state := "1768046400000000000";
              Auth.query_code := "code-1" |} in
  let w := Fixture.world None (Granting.granting Fixture.no_data)
             [Auth.Arrive r; Auth.Step 0; Auth.Step 0; Auth.TakeCode; Auth.Close]
             ["oura"; "auth"] in
  (@run_main Granting.lib w).1 = 0 /\
  f_data <$> (w_files (@run_main Granting.lib w).2 !! @token_path Granting.lib w)
  = Some Granting.granted_text /\
  w_http (@run_main Granting.lib w).2
  = [PostForm tokenURL
       [("grant_type", "authorization_code"); ("code", "code-1");
        ("redirect_uri", redirectURI);
        ("client_id", "id-1"); ("client_secret", "secret-1")]].
Proof. repeat split; vm_compute; reflexivity. Qed.

(** ** The all command *)

Section All.
Context `{Extern}.

(** [fetchAll] runs its categories in order and stops at the first step
    that exits: the steps after it do not run, and the exit status and the
    world are the ones that step left. *)
Theorem fetchAll_stops_at_first_exit (date : string) (w w0 w1 : World)
    (pre post : list (M unit)) (m : M unit) (c : Z) :
  fetchAll_steps date = pre ++ m :: post ->
  sequence pre (put_stdout (banner date) w) = (Done tt, w0) ->
  m w0 = (Exited c, w1) ->
  fetchAll date w = (Exited c, w1).
Proof.
  intros Hsteps Hpre Hm.
  change (fetchAll date w)
    with (sequence (fetchAll_steps date) (put_stdout (banner date) w)).
  rewrite Hsteps. eapply sequence_stops; eauto.
Qed.

End All.

(** The first request is answered, every later one fails in transport:
    [all] shows readiness and stops at sleep. *)
Lemma fetchAll_stops_at_first_exit_witness :
  let net := fun (n : nat) (q : HttpRequest) =>
               match n with
               | O => HttpOk {| StatusCode := 200; Body := Fixture.no_data |}
               | S _ => HttpErr "dial tcp: connection refused"
               end in
  let w := Fixture.world (Some Fixture.fresh_text) net [] [] in
  (@fetchAll Fixture.lib "2026-01-10" w).1 = Exited 1 /\
  w_stdout (@fetchAll Fixture.lib "2026-01-10" w).2
  = @banner Fixture.lib "2026-01-10"
    +:+ "No readiness data for 2026-01-10" +:+ nl +:+ nl /\
  w_stderr (@fetchAll Fixture.lib "2026-01-10" w).2
  = "Error: dial tcp: connection refused" +:+ nl /\
  length (w_http (@fetchAll Fixture.lib "2026-01-10" w).2) = 3%nat.
Proof.
  intros net w.
  set (pre := [@fetchReadiness Fixture.lib "2026-01-10"; Println EmptyString]).
  set (w0 := (sequence pre (put_stdout (@banner Fixture.lib "2026-01-10") w)).2).
  set (w1 := (@fetchSleep Fixture.lib "2026-01-10" w0).2).
  assert (sequence pre (put_stdout (@banner Fixture.lib "2026-01-10") w)
          = (Done tt, w0)) as Hpre by (vm_compute; reflexivity).
  assert (@fetchSleep Fixture.lib "2026-01-10" w0 = (Exited 1, w1)) as Hm
    by (vm_compute; reflexivity).
  rewrite (@fetchAll_stops_at_first_exit Fixture.lib "2026-01-10" w w0 w1 pre
             [Println EmptyString; @fetchActivity Fixture.lib "2026-01-10";
              Println EmptyString; @fetchStress Fixture.lib "2026-01-10";
              Println EmptyString; @fetchHeartRate Fixture.lib "2026-01-10"]
             (@fetchSleep Fixture.lib "2026-01-10") 1 eq_refl Hpre Hm).
  repeat split; vm_compute; reflexivity.
Defined.

(** ** Records of other days *)

Section Days.
Context `{Extern}.

(** The readiness and activity commands ask for the days around the date
    and report the first record of the date itself: records of other days
    are never shown, and when no record is of that date the no-data line is
    printed even though the array is not empty. *)
Theorem only_the_day_is_reported (date body : string) (w w1 : World) :
  (apiGet "/daily_readiness" (day_window date) w = (Done (Ok body), w1) ->
   (Forall (fun r => readiness_Day r <> date) (data_readiness body) ->
    fetchReadiness date w
    = (Done tt, put_stdout ("No readiness data for " +:+ date +:+ nl) w1)) /\
   (forall pre r post,
      data_readiness body = pre ++ r :: post ->
      Forall (fun r => readiness_Day r <> date) pre ->
      readiness_Day r = date ->
      fetchReadiness date w = (Done tt, put_stdout (print_readiness r) w1))) /\
  (apiGet "/daily_activity" (day_window date) w = (Done (Ok body), w1) ->
   (Forall (fun a => activity_Day a <> date) (data_activity body) ->
    fetchActivity date w
    = (Done tt, put_stdout ("No activity data for " +:+ date +:+ nl) w1)) /\
   (forall pre a post,
      data_activity body = pre ++ a :: post ->
      Forall (fun a => activity_Day a <> date) pre ->
      activity_Day a = date ->
      fetchActivity date w = (Done tt, put_stdout (print_activity a) w1))).
Proof.
  assert (forall (A : Type) (day : A -> string) (l : list A),
            Forall (fun r => day r <> date) l ->
            List.find (fun r => String.eqb (day r) date) l = None) as Hnone.
  { intros A day l Hall. induction Hall as [|r l Hr _ IH]; [reflexivity|].
    cbn. apply String.eqb_neq in Hr. now rewrite Hr. }
  assert (forall (A : Type) (day : A -> string) (pre : list A) r post,
            Forall (fun r => day r <> date) pre -> day r = date ->
            List.find (fun r => String.eqb (day r) date) (pre ++ r :: post)
            = Some r) as Hsome.
  { intros A day pre r post Hall Hr. induction Hall as [|r0 l Hr0 _ IH].
    - cbn. now rewrite Hr, String.eqb_refl.
    - cbn. apply String.eqb_neq in Hr0. now rewrite Hr0. }
  split; intros Hget; (split; [intros Hall|intros pre r post Hdata Hall Hr]).
  - unfold fetchReadiness, bind. rewrite Hget.
    rewrite (Hnone _ readiness_Day _ Hall). reflexivity.
  - unfold fetchReadiness, bind. rewrite Hget, Hdata.
    rewrite (Hsome _ readiness_Day pre r post Hall Hr). reflexivity.
  - unfold fetchActivity, bind. rewrite Hget.
    rewrite (Hnone _ activity_Day _ Hall). reflexivity.
  - unfold fetchActivity, bind. rewrite Hget, Hdata.
    rewrite (Hsome _ activity_Day pre r post Hall Hr). reflexivity.
Qed.

End Days.

(** The API returns a record of the day before only. *)
Lemma only_the_day_is_reported_witness :
  let w := Fixture.world (Some Fixture.fresh_text)
             (Fixture.answering "2026-01-09") [] [] in
  @fetchReadiness Granting.lib "2026-01-10" w
  = (Done tt,
     put_stdout ("No readiness data for " +:+ "2026-01-10" +:+ nl)
       (@apiGet Granting.lib "/daily_readiness"
          (@day_window Granting.lib "2026-01-10") w).2).
Proof.
  intros w.
  set (w1 := (@apiGet Granting.lib "/daily_readiness"
                (@day_window Granting.lib "2026-01-10") w).2).
  assert (@apiGet Granting.lib "/daily_readiness"
            (@day_window Granting.lib "2026-01-10") w
          = (Done (Ok "2026-01-09"), w1)) as Hget by (vm_compute; reflexivity).
  destruct (@only_the_day_is_reported Granting.lib "2026-01-10" "2026-01-09"
              w w1) as [Hreadiness _].
  destruct (Hreadiness Hget) as [Hnone _].
  apply Hnone. repeat constructor. discriminate.
Defined.

(** ** Heart rate, further *)

Lemma hr_loop_max_from (data : list HeartRateRecord) (mn mx sm : Z) :
  (fold_left
     (fun '(min, max, sum) hr =>
        (if BPM hr <? min then BPM hr else min,
         if max <? BPM hr then BPM hr else max,
         wrap64 (sum + BPM hr)))
     data (mn, mx, sm)).1.2
  = foldr Z.max mx (map BPM data).
Proof.
  revert mn mx sm. induction data as [|hr data IH]; intros mn mx sm; [done|].
  cbn [fold_left map foldr]. rewrite IH. clear.
  induction (map BPM data) as [|b l IHl]; cbn [foldr].
  - destruct (Z.ltb_spec mx (BPM hr)); lia.
  - lia.
Qed.

Lemma greatest_cons (d first : Z) (rest : list Z) :
  foldr Z.max d (first :: rest) = Z.max d (greatest first rest).
Proof.
  unfold greatest. induction rest as [|b l IH]; cbn [foldr] in *; lia.
Qed.

Lemma total_between (first : Z) (rest : list Z) :
  Z.of_nat (length (first :: rest)) * least first rest
  <= total (first :: rest)
  <= Z.of_nat (length (first :: rest)) * greatest first rest.
Proof.
  unfold least, greatest, total.
  induction rest as [|b l IH].
  - cbn. lia.
  - cbn [foldr length] in *.
    set (n := length l) in *. set (lo := foldr Z.min first l) in *.
    set (hi := foldr Z.max first l) in *. set (t := foldr Z.add 0 l) in *.
    rewrite !Nat2Z.inj_succ in *.
    assert (Z.min b lo <= lo) by lia. assert (Z.min b lo <= b) by lia.
    assert (hi <= Z.max b hi) by lia. assert (b <= Z.max b hi) by lia.
    assert (0 <= Z.of_nat n) by lia.
    split; nia.
Qed.

(** The maximum the heartrate command prints is the larger of 0 and the
    greatest reading, so 0 when every reading is negative; the minimum and
    the maximum printed enclose every reading; and when the sum fits in an
    [int64] the average printed lies between the least and the greatest
    reading. *)
Theorem heartrate_maximum_and_bounds (first : HeartRateRecord)
    (rest : list HeartRateRecord) :
  let data := first :: rest in
  let lo := least (BPM first) (map BPM rest) in
  let hi := greatest (BPM first) (map BPM rest) in
  hr_max data = Z.max 0 hi /\
  hr_min data <= 999 /\ 0 <= hr_max data /\
  (forall hr, hr ∈ data -> hr_min data <= BPM hr <= hr_max data) /\
  (in_int64 (total (map BPM data)) -> lo <= hr_avg data <= hi).
Proof.
  intros data lo hi.
  assert (hr_max data = Z.max 0 hi) as Hmax.
  { unfold hr_max, hr_loop. rewrite hr_loop_max_from.
    change (map BPM data) with (BPM first :: map BPM rest).
    apply greatest_cons. }
  assert (hr_min data = Z.min 999 lo) as Hmin.
  { unfold hr_min, hr_loop.
    destruct (hr_loop_from data 999 0 0) as [Hm _]. cbn zeta in Hm.
    rewrite Hm. change (map BPM data) with (BPM first :: map BPM rest).
    apply least_cons. }
  assert (forall hr, hr ∈ data -> lo <= BPM hr <= hi) as Hin.
  { subst lo hi data. unfold least, greatest. clear.
    induction rest as [|r l IH]; intros hr Hhr.
    - apply list_elem_of_singleton in Hhr as ->. cbn. lia.
    - cbn [map foldr].
      apply elem_of_cons in Hhr as [->|Hhr].
      + specialize (IH first ltac:(now apply elem_of_cons; left)). lia.
      + apply elem_of_cons in Hhr as [->|Hhr]; [lia|].
        specialize (IH hr ltac:(now apply elem_of_cons; right)). lia. }
  split; [exact Hmax|]. split; [lia|]. split; [lia|]. split.
  - intros hr Hhr. specialize (Hin hr Hhr). lia.
  - intros Hfit. unfold hr_avg, hr_sum, hr_loop.
    destruct (hr_loop_from data 999 0 0) as [_ Hs]. cbn zeta in Hs.
    rewrite Hs. cbn [data]. rewrite Z.add_0_l, wrap64_small by exact Hfit.
    pose proof (total_between (BPM first) (map BPM rest)) as Hb.
    change (BPM first :: map BPM rest) with (map BPM data) in Hb.
    rewrite length_map in Hb. fold lo hi in Hb.
    set (n := Z.of_nat (length data)) in *.
    set (t := total (map BPM data)) in *.
    assert (0 < n) by (subst n data; cbn [length]; lia).
    destruct (Z.le_gt_cases 0 t) as [Hpos|Hneg].
    + rewrite Z.quot_div_nonneg by lia. split.
      * apply Z.div_le_lower_bound; lia.
      * apply Z.div_le_upper_bound; lia.
    + replace t with (- (- t)) by lia.
      rewrite Z.quot_opp_l by lia. rewrite Z.quot_div_nonneg by lia.
      assert ((- t) / n <= - lo) by (apply Z.div_le_upper_bound; lia).
      assert (- hi <= (- t) / n) by (apply Z.div_le_lower_bound; lia).
      lia.
Qed.

(** Readings -5 and -3: the maximum printed is 0 and the average -4. *)
Example heartrate_negative_readings :
  hr_max [Fixture.reading (-5); Fixture.reading (-3)] = 0 /\
  hr_min [Fixture.reading (-5); Fixture.reading (-3)] = -5 /\
  hr_avg [Fixture.reading (-5); Fixture.reading (-3)] = -4.
Proof. repeat split. Qed.

(** ** The json command *)

Section Dump.
Context `{Extern}.

Lemma apiGet_served (serve : string -> string) (ep : string) (ps : Values)
    (w : World) :
  authenticated w -> serves serve w ->
  exists w',
    apiGet ep ps w = (Done (Ok (serve (api_url ep ps))), w') /\
    authenticated w' /\ serves serve w' /\
    w_stdout w' = w_stdout w /\ w_stderr w' = w_stderr w /\
    w_files w' = w_files w /\
    length (w_http w') = S (length (w_http w)).
Proof.
  intros Hauth Hnet. pose proof Hauth as (f & token & Hfile & Hjson & Hfresh).
  assert ((loadToken w).1 = Done (Ok token)) as Hload.
  { rewrite loadToken_eq. cbn. rewrite Hfile. now rewrite Hjson. }
  pose proof (getValidToken_loaded _ _ Hload) as Hvalid.
  unfold Time_After, Time_Add in Hvalid.
  pose proof (Hfresh (w_reads w)) as Hnow. apply Z.ltb_ge in Hnow.
  rewrite Hnow in Hvalid.
  unfold apiGet, bind. rewrite Hvalid. unfold http_Do.
  cbn [w_net tick visited log_call].
  rewrite (Hnet _ (api_url ep ps) ("Bearer " +:+ AccessToken token)). cbn.
  eexists. split; [reflexivity|]. split; [exact Hauth|]. split; [exact Hnet|].
  cbn. rewrite length_app. cbn. repeat split; lia.
Qed.

Lemma fetchJSON_loop_served (serve : string -> string) (eps : list string)
    (ps : Values) (result : gmap string string) (w : World) :
  authenticated w -> serves serve w ->
  exists w',
    fetchJSON_loop eps ps result w
    = (Done (fold_left
               (fun m ep => <[TrimPrefix ep "/" := serve (api_url ep ps)]> m)
               eps result), w') /\
    w_stdout w' = w_stdout w /\ w_stderr w' = w_stderr w /\
    w_files w' = w_files w /\
    length (w_http w') = (length (w_http w) + length eps)%nat.
Proof.
  revert result w. induction eps as [|ep eps IH]; intros result w Hauth Hnet.
  - exists w. cbn. repeat split; lia.
  - cbn [fetchJSON_loop fold_left length]. unfold bind.
    destruct (apiGet_served serve ep ps w Hauth Hnet)
      as (w1 & -> & Hauth1 & Hnet1 & Ho & He & Hf & Hl).
    destruct (IH (<[TrimPrefix ep "/" := serve (api_url ep ps)]> result) w1
                Hauth1 Hnet1) as (w2 & -> & Ho2 & He2 & Hf2 & Hl2).
    exists w2. split; [reflexivity|]. repeat split; try congruence. lia.
Qed.

(** With a usable token on file and every request answered 200, the json
    command sends ten requests and prints the map that has, for each of
    the ten endpoints, the body received under the endpoint's name; it
    writes nothing to the error stream, changes no file and returns. *)
Theorem json_dump_has_every_endpoint (serve : string -> string)
    (date : string) (w : World) :
  authenticated w -> serves serve w ->
  exists w',
    fetchJSON date w = (Done tt, w') /\
    w_stdout w'
    = w_stdout w +:+ (json_MarshalIndent_raw (full_dump serve date) +:+ nl) /\
    w_stderr w' = w_stderr w /\ w_files w' = w_files w /\
    length (w_http w') = (length (w_http w) + 10)%nat.
Proof.
  intros Hauth Hnet. unfold fetchJSON, bind.
  destruct (fetchJSON_loop_served serve endpoints (day_only date) ∅ w Hauth Hnet)
    as (w1 & -> & Ho & He & Hf & Hl).
  eexists. split; [reflexivity|].
  cbn [w_stdout w_stderr w_files w_http put_stdout Println Print].
  rewrite Ho, He, Hf, Hl. repeat split.
Qed.

End Dump.

(** Every endpoint answers [{"data":[]}]. *)
Lemma json_dump_has_every_endpoint_witness :
  let w := Fixture.world (Some Fixture.fresh_text)
             (Fixture.answering Fixture.no_data) [] [] in
  exists w',
    @fetchJSON Granting.lib "2026-01-10" w = (Done tt, w') /\
    w_stdout w'
    = w_stdout w
      +:+ (@json_MarshalIndent_raw Granting.lib
             (@full_dump Granting.lib (fun _ => Fixture.no_data) "2026-01-10")
           +:+ nl) /\
    w_stderr w' = w_stderr w /\ w_files w' = w_files w /\
    length (w_http w') = (length (w_http w) + 10)%nat.
Proof.
  intros w.
  apply (@json_dump_has_every_endpoint Granting.lib
           (fun _ => Fixture.no_data) "2026-01-10" w).
  - exists (Fixture.file Fixture.fresh_text), Fixture.fresh.
    split; [reflexivity|]. split; [reflexivity|].
    intros n. vm_compute. discriminate.
  - intros n url authorization. reflexivity.
Defined.

(** ** The API client *)

Section ApiClient.
Context `{Extern}.

(** With a stored token that is not due, [apiGet] sends one request and
    only one: the GET with the stored access token as bearer, nothing to
    the token endpoint.  It returns the body on status 200, an error that
    names the status and carries the body on any other status, and the
    transport error when there is no response; no file changes. *)
Theorem apiGet_with_a_fresh_token (ep : string) (ps : Values) (w : World)
    (token : StoredToken) :
  (loadToken w).1 = Done (Ok token) ->
  w_clock w (w_reads w) + 5 * Minute <= ExpiresAt token ->
  let q := api_request ep ps (AccessToken token) in
  w_http (apiGet ep ps w).2 = w_http w ++ [q] /\
  w_files (apiGet ep ps w).2 = w_files w /\
  (apiGet ep ps w).1
  = Done match w_net w (length (w_http w)) q with
         | HttpErr e => Err e
         | HttpOk resp =>
             if StatusCode resp =? 200 then Ok (Body resp)
             else Err ("API error " +:+ fmt_d (StatusCode resp) +:+ ": "
                       +:+ Body resp)
         end.
Proof.
  intros Hload Hfresh q.
  pose proof (getValidToken_loaded _ _ Hload) as Hvalid.
  unfold Time_After, Time_Add in Hvalid.
  apply Z.ltb_ge in Hfresh. rewrite Hfresh in Hvalid.
  subst q. unfold api_request, apiGet, bind. rewrite Hvalid.
  unfold http_Do. cbn.
  match goal with |- context [w_net w ?n ?r] =>
    destruct (w_net w n r) as [e|resp] end; cbn; [done|].
  destruct (StatusCode resp =? 200); cbn; done.
Qed.

End ApiClient.

(** A fresh token and an API that answers 429. *)
Lemma apiGet_with_a_fresh_token_witness :
  let limited := fun (_ : nat) (_ : HttpRequest) =>
                   HttpOk {| StatusCode := 429; Body := "slow down" |} in
  let w := Fixture.world (Some Fixture.fresh_text) limited [] [] in
  let q := @api_request Fixture.lib "/heartrate" (day_only "2026-01-10")
             "at-fresh" in
  w_http (@apiGet Fixture.lib "/heartrate" (day_only "2026-01-10") w).2
  = w_http w ++ [q] /\
  w_files (@apiGet Fixture.lib "/heartrate" (day_only "2026-01-10") w).2
  = w_files w /\
  (@apiGet Fixture.lib "/heartrate" (day_only "2026-01-10") w).1
  = Done (Err "API error 429: slow down").
Proof.
  intros limited w q.
  apply (@apiGet_with_a_fresh_token Fixture.lib "/heartrate"
           (day_only "2026-01-10") w Fixture.fresh).
  - reflexivity.
  - vm_compute. discriminate.
Defined.
